(** * lpac ESP-IDF drivers: the T=0 APDU transceiver and the HTTP collaborator

    A shallow embedding of [driver/apdu/espidf.c] and [driver/http/espidf.c].

    Bytes are [Z] values in [0, 256).  The serial line is a record holding a
    script of what each pending read will deliver and the log of what has
    been written; C functions that return [int] and mutate the line become
    functions from a line to a result and a line.  Time is not modelled: a
    silence longer than the deadline of the read that meets it is one [None]
    entry of the script. *)

From Stdlib Require Import String Ascii ZArith List Bool Lia.
Import ListNotations.
Local Open Scope Z_scope.

(** ** Bytes and byte buffers *)

Definition is_byte (b : Z) : Prop := 0 <= b < 256.

(** [p[i]] for a pointer [p] into a byte array whose contents from [p] on
    are [buf]. *)
Definition byte_at (buf : list Z) (i : Z) : Z := nth (Z.to_nat i) buf 0.

(** [p + n] *)
Definition advance (buf : list Z) (n : Z) : list Z := skipn (Z.to_nat n) buf.

(** The first [n] bytes at [p]. *)
Definition take (buf : list Z) (n : Z) : list Z := firstn (Z.to_nat n) buf.

(** [strncmp] of the C library: compares at most [n] characters as unsigned
    chars and stops at the first difference or after a NUL found in both. *)
Fixpoint strncmp (s1 s2 : list Z) (n : nat) : Z :=
  match n with
  | O => 0
  | S n' =>
      let c1 := hd 0 s1 in
      let c2 := hd 0 s2 in
      if c1 =? c2
      then if c1 =? 0 then 0 else strncmp (tl s1) (tl s2) n'
      else c1 - c2
  end.

(** ** The serial line (UART_NUM_1) *)

Module Uart.

Record line : Type := mkLine {
  rxq : list (option Z);   (* what the reads to come deliver: a byte, or a timeout *)
  txlog : list Z;          (* every byte written so far, oldest first *)
  tx_up : bool             (* whether the driver accepts writes *)
}.

Definition with_rxq (u : line) (q : list (option Z)) : line :=
  mkLine q (txlog u) (tx_up u).

(** [uart_write_bytes(UART_NUM_1, src, size)]: the number of bytes pushed,
    or -1. *)
Definition uart_write_bytes (src : list Z) (size : Z) (u : line) : Z * line :=
  if tx_up u
  then (size, mkLine (rxq u) (txlog u ++ take src size) true)
  else (-1, u).

(** The bytes a read of [n] bytes obtains before its deadline, and the
    script left for later reads. *)
Fixpoint read_upto (n : nat) (q : list (option Z)) : list Z * list (option Z) :=
  match n with
  | O => ([], q)
  | S n' =>
      match q with
      | [] => ([], [])
      | None :: q' => ([], q')
      | Some b :: q' => let '(bs, r) := read_upto n' q' in (b :: bs, r)
      end
  end.

(** [uart_read_bytes(UART_NUM_1, buf, length, ticks)]: the bytes placed in
    [buf]; the C return value is their number. *)
Definition uart_read_bytes (length : Z) (u : line) : list Z * line :=
  let '(bs, q) := read_upto (Z.to_nat length) (rxq u) in (bs, with_rxq u q).

(** [uart_get_buffered_data_len]: the bytes that are there without
    waiting. *)
Fixpoint buffered (q : list (option Z)) : nat :=
  match q with
  | Some _ :: q' => S (buffered q')
  | _ => O
  end.

Definition uart_get_buffered_data_len (u : line) : Z := Z.of_nat (buffered (rxq u)).

(** Every byte the line will deliver is a byte. *)
Definition wf_rxq (q : list (option Z)) : Prop :=
  Forall (fun e => match e with Some b => is_byte b | None => True end) q.

End Uart.

Import Uart.

(** ** driver/apdu/espidf.c *)

Module Apdu.

Definition EUICC_INTERFACE_BUFSZ : Z := 264.

Definition APDU_TERMINAL_CAPABILITIES : list Z :=
  [0x80; 0xAA; 0x00; 0x00; 0x0A; 0xA9; 0x08; 0x81; 0x00; 0x82; 0x01; 0x01; 0x83; 0x01; 0x07].
Definition APDU_OPENLOGICCHANNEL : list Z := [0x00; 0x70; 0x00; 0x00; 0x01].
Definition APDU_CLOSELOGICCHANNEL : list Z := [0x00; 0x70; 0x80; 0xFF; 0x00].
Definition APDU_SELECT_HEADER : list Z := [0x00; 0xA4; 0x04; 0x00; 0xFF].

(** The local [rx_buf] of [_send_and_clear_echo]: [EUICC_INTERFACE_BUFSZ]
    zero bytes, the bytes read written over its start. *)
Definition echo_buf (got : list Z) : list Z :=
  got ++ repeat 0 (Z.to_nat EUICC_INTERFACE_BUFSZ - length got).

Definition _send_and_clear_echo (tx : list Z) (tx_len : Z) (u : line) : Z * line :=
  let '(n, u1) := uart_write_bytes tx tx_len u in
  if negb (n =? tx_len) then (-1, u1)
  else
    let '(got, u2) := uart_read_bytes tx_len u1 in
    if negb (Z.of_nat (length got) =? tx_len) then (-1, u2)
    else if negb (strncmp (echo_buf got) tx (Z.to_nat tx_len) =? 0) then (-1, u2)
    else (0, u2).

(** *** The caller's response buffer

    [_transmit_raw] writes through the pointer [rx] without knowing how
    many bytes it points to.  [cells] are the bytes of the array the caller
    passed; a store at an index past them lands in whatever memory follows
    and is recorded in [spill], latest first. *)
Record rxmem : Type := mkRx {
  cells : list Z;
  spill : list (Z * Z)
}.

Fixpoint upd (n : nat) (v : Z) (l : list Z) : list Z :=
  match l with
  | [] => []
  | x :: l' => match n with O => v :: l' | S n' => x :: upd n' v l' end
  end.

(** [rx[i] = v] *)
Definition store (m : rxmem) (i v : Z) : rxmem :=
  if i <? Z.of_nat (length (cells m))
  then mkRx (upd (Z.to_nat i) v (cells m)) (spill m)
  else mkRx (cells m) ((i, v) :: spill m).

(** [rx[i]] *)
Definition load (m : rxmem) (i : Z) : Z :=
  if i <? Z.of_nat (length (cells m))
  then nth (Z.to_nat i) (cells m) 0
  else match find (fun p => fst p =? i) (spill m) with
       | Some p => snd p
       | None => 0
       end.

(** The two out-parameters of [_transmit_raw]: the memory at [rx] and
    [*rx_len]. *)
Record resp : Type := mkResp {
  rx : rxmem;
  rx_len : Z
}.

(** The first [*rx_len] bytes at [rx]. *)
Definition response (o : resp) : list Z :=
  map (fun i => load (rx o) (Z.of_nat i)) (seq 0 (Z.to_nat (rx_len o))).

(** [ntohs(*(uint16_t *)(tx + off))]: the two bytes at [off], big-endian. *)
Definition ntohs_at (tx : list Z) (off : Z) : Z :=
  Z.lor (Z.shiftl (byte_at tx off) 8) (byte_at tx (off + 1)).

(** Lines 113-176: the number of response bytes to wait for.  The initial
    value [tx[4] + 7 - tx_len] is overwritten on every path. *)
Definition to_recv_of (tx : list Z) (tx_len : Z) : Z :=
  if (byte_at tx 4 =? 0) && (5 <? tx_len) then
    (* Extend *)
    if tx_len =? 7 then
      let le := ntohs_at tx 5 in
      if le =? 0 then 65535 else le + 2
    else
      let body_len := (tx_len - 4) mod 65536 in
      let lc := ntohs_at tx 5 in
      if negb (lc =? body_len - 3) && negb (lc =? body_len - 5) then 65535
      else if tx_len =? 7 + lc then 2
      else
        let to_recv := ntohs_at tx (tx_len - 2) in
        if to_recv =? 0 then 65535 else to_recv + 2
  else if tx_len =? 5 then
    let to_recv := byte_at tx 4 in
    if to_recv =? 0 then 65535 else to_recv + 2
  else
    let body_len := tx_len - 4 in
    let lc := byte_at tx 4 in
    if negb (lc =? body_len - 1) && negb (lc =? body_len - 2) then 65535
    else if tx_len =? 5 + lc then 2
    else
      let to_recv := byte_at tx (tx_len - 1) in
      if to_recv =? 0 then 65535
      else if tx_len =? 5 + lc then 2
      else
        let to_recv := byte_at tx (tx_len - 1) in
        if to_recv =? 0 then 65535 else to_recv + 2.

(** Lines 76-106, the [while (1)] that reads procedure bytes.  [None] is
    the [break]; [Some (r, o)] is a [return r] with the out-parameters as
    they are then.  Each round takes one entry of the script, so the loop
    is a recursion on the script. *)
Fixpoint procedure_loop (ins : Z) (o : resp) (q : list (option Z))
  : option (Z * resp) * list (option Z) :=
  match q with
  | [] => (Some (-1, o), [])
  | None :: q1 => (Some (-1, o), q1)
  | Some ack :: q1 =>
      if ack =? ins then (None, q1)
      else if negb (ack =? 0x60) then
        let sw1 := ack in
        match q1 with
        | [] => (Some (-1, o), [])
        | None :: q2 => (Some (-1, o), q2)
        | Some sw2 :: q2 =>
            match q2 with
            | Some _ :: q3 => (Some (-1, o), q3)
            | None :: q3 =>
                (Some (0, mkResp (store (store (rx o) 0 sw1) 1 sw2) 2), q3)
            | [] =>
                (Some (0, mkResp (store (store (rx o) 0 sw1) 1 sw2) 2), [])
            end
        end
      else procedure_loop ins o q1
  end.

(** Lines 182-197, the receive loop: the memory at [rx], [*rx_len] and the
    script when the loop is left.  [has_recv] only selects the deadline. *)
Fixpoint receive_loop (to_recv : Z) (m : rxmem) (len : Z) (q : list (option Z))
  : rxmem * Z * list (option Z) :=
  if len <? to_recv then
    match q with
    | [] => (m, len, [])
    | None :: q' => (m, len, q')
    | Some b :: q' =>
        let m' := store m len b in
        if (to_recv =? 2) && (load m' len =? 0x60)
        then receive_loop to_recv m' len q'
        else receive_loop to_recv m' (len + 1) q'
    end
  else (m, len, q).

(** Lines 107-207: what follows the acknowledgement. *)
Definition after_ack (o : resp) (tx : list Z) (tx_len : Z) (u : line)
  : Z * resp * line :=
  let '(e, u1) :=
    if 5 <? tx_len
    then _send_and_clear_echo (advance tx 5) (tx_len - 5) u
    else (0, u) in
  if negb (e =? 0) then (-1, o, u1)
  else
    let to_recv := to_recv_of tx tx_len in
    let '(m, n, q) := receive_loop to_recv (rx o) 0 (rxq u1) in
    if negb (n =? to_recv) && negb (to_recv =? 65535)
    then (-1, mkResp m n, with_rxq u1 q)
    else (0, mkResp m n, with_rxq u1 q).

(** Lines 72-207: from the transmission of the header on. *)
Definition after_check (o : resp) (tx : list Z) (tx_len : Z) (u : line)
  : Z * resp * line :=
  let '(e, u1) := _send_and_clear_echo tx 5 u in
  if negb (e =? 0) then (-1, o, u1)
  else
    match procedure_loop (byte_at tx 1) o (rxq u1) with
    | (Some (r, o'), q) => (r, o', with_rxq u1 q)
    | (None, q) => after_ack o tx tx_len (with_rxq u1 q)
    end.

(** [tx_len] is a [uint8_t]: callers pass it reduced modulo 256. *)
Definition _transmit_raw (o : resp) (tx : list Z) (tx_len : Z) (u : line)
  : Z * resp * line :=
  if tx_len <? 5 then (-1, o, u) else after_check o tx tx_len u.

(** *** The ATR listener, [_wait_for_card] *)

(** Lines 224-232: repeated start markers are read away; the first other
    byte is T0. *)
Fixpoint skip_markers (q : list (option Z)) : option Z * list (option Z) :=
  match q with
  | [] => (None, [])
  | None :: q' => (None, q')
  | Some data :: q' =>
      if negb (data =? 0x3B) then (Some data, q') else skip_markers q'
  end.

(** Lines 235-244, over the values [i] still to come. *)
Fixpoint read_interface (t0 : Z) (idx : list Z) (q : list (option Z))
  : bool * list (option Z) :=
  match idx with
  | [] => (true, q)
  | i :: idx' =>
      if negb (Z.land t0 (Z.shiftl 0x10 i) =? 0) then
        match q with
        | [] => (false, [])
        | None :: q' => (false, q')
        | Some _ :: q' => read_interface t0 idx' q'
        end
      else read_interface t0 idx' q
  end.

(** Lines 245-252, [n] rounds to go. *)
Fixpoint read_historical (n : nat) (q : list (option Z)) : bool * list (option Z) :=
  match n with
  | O => (true, q)
  | S n' =>
      match q with
      | [] => (false, [])
      | None :: q' => (false, q')
      | Some _ :: q' => read_historical n' q'
      end
  end.

(** Lines 256-260: [s] reads whose outcome is not looked at. *)
Fixpoint drain (s : nat) (q : list (option Z)) : list (option Z) :=
  match s with
  | O => q
  | S s' => drain s' (tl q)
  end.

(** The [while (retry++ < 1)] body runs once. *)
Definition _wait_for_card (u : line) : Z * line :=
  match rxq u with
  | [] => (-1, with_rxq u [])
  | None :: q1 => (-1, with_rxq u q1)
  | Some data :: q1 =>
      if negb (data =? 0x3B) then (-1, with_rxq u q1)
      else
        match skip_markers q1 with
        | (None, q2) => (-1, with_rxq u q2)
        | (Some t0, q2) =>
            match read_interface t0 [0; 1; 2; 3] q2 with
            | (false, q3) => (-1, with_rxq u q3)
            | (true, q3) =>
                match read_historical (Z.to_nat (Z.land t0 0xF)) q3 with
                | (false, q4) => (-1, with_rxq u q4)
                | (true, q4) => (0, with_rxq u (drain (buffered q4) q4))
                end
            end
        end
  end.

(** *** Logical channels and the transmit entry point *)

(** An array of [n] bytes that nobody has written yet holds [junk]. *)
Definition fit (n : Z) (junk : list Z) : list Z :=
  firstn (Z.to_nat n) (junk ++ repeat 0 (Z.to_nat n)).

(** The local [uint8_t rx_buf[EUICC_INTERFACE_BUFSZ]; uint32_t rx_len;] *)
Definition local_resp (junk : list Z) (junk_len : Z) : resp :=
  mkResp (mkRx (fit EUICC_INTERFACE_BUFSZ junk) []) junk_len.

(** The SELECT command of lines 311-316. *)
Definition select_command (channel : Z) (aid : list Z) (aid_len : Z) : list Z :=
  let tx_buf := APDU_SELECT_HEADER ++ take aid aid_len in
  let tx_buf := upd 0 (Z.lor (Z.land (byte_at tx_buf 0) 0xF0) channel mod 256) tx_buf in
  upd 4 aid_len tx_buf.

Definition apdu_interface_logic_channel_open
    (junk : list Z) (junk_len : Z) (aid : list Z) (aid_len : Z) (u : line)
  : Z * line :=
  let '(r, o, u1) := _transmit_raw (local_resp junk junk_len) APDU_OPENLOGICCHANNEL 5 u in
  if negb (r =? 0) then (-1, u1)
  else if negb (rx_len o =? 3) then (-1, u1)
  else if negb (Z.land (load (rx o) 1) 0xF0 =? 0x90) then (-1, u1)
  else
    let channel := load (rx o) 0 in
    let tx_len := 6 + aid_len - 1 in
    let tx_buf := select_command channel aid aid_len in
    let '(r2, o2, u2) := _transmit_raw o tx_buf (tx_len mod 256) u1 in
    if negb (r2 =? 0) then (-1, u2)
    else if rx_len o2 <? 2 then (-1, u2)
    else
      let sw := load (rx o2) (rx_len o2 - 2) in
      if (sw =? 0x90) || (sw =? 0x61) then (channel, u2) else (-1, u2).

Definition apdu_interface_logic_channel_close
    (junk : list Z) (junk_len : Z) (channel : Z) (u : line) : line :=
  if negb (channel =? 0) then
    let '(_, _, u1) := _transmit_raw (local_resp junk junk_len) APDU_CLOSELOGICCHANNEL 5 u in
    u1
  else u.

(** [heap] is what [malloc] finds: [None] when it fails, otherwise the
    stale contents of the block.  The result is the return value, the block
    [*rx] points to ([None] once it is freed or when it is NULL), and
    [*rx_len]. *)
Definition apdu_interface_transmit
    (heap : option (list Z)) (rx_len0 : Z) (tx : list Z) (tx_len : Z) (u : line)
  : Z * option rxmem * Z * line :=
  match heap with
  | None => (-1, None, rx_len0, u)
  | Some junk =>
      let o := mkResp (mkRx (fit EUICC_INTERFACE_BUFSZ junk) []) EUICC_INTERFACE_BUFSZ in
      let '(r, o', u') := _transmit_raw o tx (tx_len mod 256) u in
      if negb (r =? 0) then (-1, None, 0, u')
      else (0, Some (rx o'), rx_len o', u')
  end.

(** The bytes of a card's answer that the receive loop counts into the
    response: all of them, but for the 0x60 bytes when only a status word is
    waited for (line 192). *)
Definition counted (to_recv : Z) (wire : list Z) : list Z :=
  filter (fun b => negb ((to_recv =? 2) && (b =? 0x60))) wire.

End Apdu.

(** ** driver/http/espidf.c *)

Module Http.

Definition ESP_OK : Z := 0.
Definition ESP_FAIL : Z := -1.

Definition u32 (x : Z) : Z := x mod 2 ^ 32.

(** The file's static variables that [transmit] uses.  A heap block is the
    list of its bytes; [None] is NULL. *)
Record globals : Type := mkGlobals {
  output_buffer : option (list Z);
  output_len : Z;
  receive_len : Z
}.

Inductive event : Type :=
| HTTP_EVENT_ERROR
| HTTP_EVENT_ON_CONNECTED
| HTTP_EVENT_HEADER_SENT
| HTTP_EVENT_ON_HEADER
| HTTP_EVENT_ON_DATA (data : list Z)
| HTTP_EVENT_ON_FINISH
| HTTP_EVENT_DISCONNECTED
| HTTP_EVENT_REDIRECT.

(** [malloc(size)] and [realloc(old, size)] when the allocator answers
    [heap]: [None] is failure, [Some junk] a block whose new bytes hold
    [junk]. *)
Definition malloc (size : Z) (heap : option (list Z)) : option (list Z) :=
  option_map (Apdu.fit size) heap.

Definition realloc (old : list Z) (size : Z) (heap : option (list Z)) : option (list Z) :=
  option_map (fun junk => Apdu.fit size (old ++ junk)) heap.

(** [memcpy(buf + off, data, length data)] *)
Definition memcpy_at (buf : list Z) (off : Z) (data : list Z) : list Z :=
  firstn (Z.to_nat off) buf ++ data ++ skipn (Z.to_nat off + length data) buf.

Definition _http_event_handler (evt : event) (heap : option (list Z)) (g : globals)
  : Z * globals :=
  match evt with
  | HTTP_EVENT_ON_DATA data =>
      let data_len := Z.of_nat (length data) in
      let receive_len' := u32 (receive_len g + data_len) in
      match output_buffer g with
      | None =>
          match malloc (data_len + 1) heap with
          | None => (ESP_FAIL, mkGlobals None 0 receive_len')
          | Some b =>
              (ESP_OK, mkGlobals (Some (memcpy_at b 0 data)) (u32 (0 + data_len)) receive_len')
          end
      | Some old =>
          match realloc old (u32 (output_len g + data_len + 1)) heap with
          | None => (ESP_FAIL, mkGlobals None (output_len g) receive_len')
          | Some b =>
              (ESP_OK, mkGlobals (Some (memcpy_at b (output_len g) data))
                                 (u32 (output_len g + data_len)) receive_len')
          end
      end
  | _ => (ESP_OK, g)
  end.

(** What [esp_http_client_perform] does to the globals: it dispatches
    events, each meeting some answer of the allocator. *)
Fixpoint dispatch (evts : list (event * option (list Z))) (g : globals) : globals :=
  match evts with
  | [] => g
  | (evt, heap) :: evts' => dispatch evts' (snd (_http_event_handler evt heap g))
  end.

(** The results of [transmit]: the return value and the out-parameters. *)
Record result : Type := mkResult {
  ret : Z;
  rcode : Z;
  rx : option (list Z);
  rx_len : Z
}.

(** Lines 120-163.  [evts] and [err] are what [esp_http_client_perform]
    does and returns, [status] what [esp_http_client_get_status_code]
    returns. *)
Definition transmit (evts : list (event * option (list Z))) (err status : Z) (g0 : globals)
  : result * globals :=
  let g := dispatch evts (mkGlobals None 0 0) in
  if negb (output_len g =? receive_len g) then
    (mkResult (-1) 0 None 0, mkGlobals None 0 0)
  else if err =? ESP_OK then
    if (0 <? output_len g) && (match output_buffer g with Some _ => true | None => false end)
    then
      match output_buffer g with
      | Some b =>
          let b' := memcpy_at b (output_len g) [0] in
          (mkResult 0 status (Some b') (u32 (output_len g + 1)), mkGlobals (Some b') 0 0)
      | None => (mkResult 0 status None 0, mkGlobals None 0 0)
      end
    else (mkResult 0 status None 0, mkGlobals (output_buffer g) 0 0)
  else
    (mkResult (-1) status None 0, mkGlobals None 0 0).

(** The body bytes a run of events delivers, in order. *)
Definition body_of (evts : list (event * option (list Z))) : list Z :=
  flat_map (fun p => match fst p with HTTP_EVENT_ON_DATA data => data | _ => [] end) evts.

(** The HTTP client reports body data only when there is some. *)
Definition chunks_nonempty (evts : list (event * option (list Z))) : Prop :=
  Forall (fun p => match fst p with HTTP_EVENT_ON_DATA data => data <> [] | _ => True end)
         evts.

(** How the globals follow the body received so far: [receive_len] counts
    it; [output_len] falls behind for good once an allocation fails; and
    while it has not, the buffer is the body and one spare byte. *)
Definition tracking (body : list Z) (g : globals) : Prop :=
  receive_len g = Z.of_nat (length body)
  /\ 0 <= output_len g <= receive_len g
  /\ (output_len g = receive_len g ->
      (body = [] /\ output_buffer g = None)
      \/ (body <> [] /\ exists j, output_buffer g = Some (body ++ [j]))).

(** *** The request headers, lines 105-118

    A C string is the [string] of its characters before the terminator. *)

(** [strchr(h, ':')]: the characters before the first colon and those after
    it, or [None] for NULL. *)
Fixpoint split_at_colon (h : string) : option (string * string) :=
  match h with
  | EmptyString => None
  | String c h' =>
      if Ascii.eqb c ":" then Some (EmptyString, h')
      else match split_at_colon h' with
           | Some (key, after) => Some (String c key, after)
           | None => None
           end
  end.

(** The string at [delimiter + 2].  When the colon is the last character,
    that address lies behind the terminator. *)
Inductive header_value : Type :=
| Value (v : string)
| BehindTerminator.

(** What one entry of [h] makes of [esp_http_client_set_header]: no call, or
    a call with this key and this value. *)
Definition header_of (h : string) : option (string * header_value) :=
  match split_at_colon h with
  | None => None
  | Some (key, after) =>
      Some (key, match after with
                 | EmptyString => BehindTerminator
                 | String _ v => Value v
                 end)
  end.

(** The calls of [esp_http_client_set_header] the loop makes, in order. *)
Fixpoint set_headers (h : list string) : list (string * header_value) :=
  match h with
  | [] => []
  | hi :: h' =>
      match header_of hi with
      | Some kv => kv :: set_headers h'
      | None => set_headers h'
      end
  end.

End Http.

(** ** The tables of the specification

    Written from the words of the specification, to be compared with the
    code above. *)

Module Iso7816.

(** A 2-byte big-endian length field. *)
Definition be16 (hi lo : Z) : Z := 256 * hi + lo.

(** "undetermined": read until the card falls silent. *)
Definition undetermined : Z := 65535.

Definition with_status_word (le : Z) : Z :=
  if le =? 0 then undetermined else le + 2.

(** The short form: a header whose fifth byte is [p3], then [body]. *)
Definition expected_short (p3 : Z) (body : list Z) : Z :=
  let n := Z.of_nat (length body) in
  if n =? 0 then with_status_word p3                     (* header | Le *)
  else if n =? p3 then 2                                 (* header | Lc | data *)
  else if n =? p3 + 1 then with_status_word (last body 0) (* header | Lc | data | Le *)
  else undetermined.

(** The extended form: a header whose fifth byte is 0, then a non-empty
    [body] that starts with a 2-byte field. *)
Definition expected_extended (body : list Z) : Z :=
  match body with
  | [le1; le2] => with_status_word (be16 le1 le2)        (* header | 00 | Le *)
  | lc1 :: lc2 :: rest =>
      let lc := be16 lc1 lc2 in
      let n := Z.of_nat (length rest) in
      if n =? lc then 2                                  (* header | 00 | Lc | data *)
      else if n =? lc + 2                                (* header | 00 | Lc | data | Le *)
      then with_status_word
             (be16 (nth (Z.to_nat lc) rest 0) (nth (S (Z.to_nat lc)) rest 0))
      else undetermined
  | _ => undetermined
  end.

(** The interface bytes T0 announces: one for each bit set in its high
    nibble; and the historical bytes: its low nibble. *)
Definition interface_count (t0 : Z) : nat :=
  length (filter (Z.testbit t0) [4; 5; 6; 7]).

Definition historical_count (t0 : Z) : nat := Z.to_nat (Z.land t0 0x0F).

End Iso7816.

(** ** Properties of the serial line and of the byte helpers *)

Import Apdu.

(** Case analysis on every test the goal still branches on. *)
Ltac case_ifs :=
  repeat match goal with
         | |- context [if ?c then _ else _] => destruct c
         end.

Lemma strncmp_same (n : nat) : forall s1 s2,
  firstn n s1 = firstn n s2 -> strncmp s1 s2 n = 0.
Proof.
  induction n as [|n IH]; intros s1 s2 H; [reflexivity|].
  destruct s1 as [|a s1], s2 as [|b s2]; simpl in *; try discriminate.
  - reflexivity.
  - injection H as -> H. rewrite Z.eqb_refl.
    destruct (b =? 0); [reflexivity | now apply IH].
Qed.

(** [strncmp] never looks past a NUL that both strings hold. *)
Lemma strncmp_stops_at_nul (pre : list Z) : forall s1 s2 n,
  strncmp (pre ++ 0 :: s1) (pre ++ 0 :: s2) n = 0.
Proof.
  induction pre as [|c pre IH]; intros s1 s2 [|n]; simpl; try reflexivity.
  rewrite Z.eqb_refl. destruct (c =? 0); [reflexivity | apply IH].
Qed.

(** With no NUL among the bytes sent, [strncmp] is a comparison of bytes. *)
Lemma strncmp_exact (n : nat) : forall s1 s2,
  (n <= length s1)%nat -> (n <= length s2)%nat ->
  Forall (fun c => c <> 0) (firstn n s2) ->
  strncmp s1 s2 n = 0 -> firstn n s1 = firstn n s2.
Proof.
  induction n as [|n IH]; intros s1 s2 H1 H2 Hnz H; [reflexivity|].
  destruct s1 as [|a s1], s2 as [|b s2]; simpl in *; try lia.
  inversion Hnz as [|? ? Hb Hrest]; subst.
  destruct (Z.eqb_spec a b) as [->|Hab].
  - destruct (Z.eqb_spec b 0) as [?|_]; [contradiction|].
    f_equal. apply IH; auto; lia.
  - exfalso. lia.
Qed.

(** A read of one byte takes the head of the script: this is how the loops
    of the driver, which read byte by byte, are written above. *)
Lemma uart_read_bytes_one (u : line) :
  uart_read_bytes 1 u
  = match rxq u with
    | [] => ([], with_rxq u [])
    | None :: q => ([], with_rxq u q)
    | Some b :: q => ([b], with_rxq u q)
    end.
Proof.
  unfold uart_read_bytes. change (Z.to_nat 1) with 1%nat.
  destruct (rxq u) as [|[b|] q]; reflexivity.
Qed.

Lemma read_upto_all (bs : list Z) (q : list (option Z)) :
  read_upto (length bs) (map Some bs ++ q) = (bs, q).
Proof.
  induction bs as [|b bs IH]; simpl; [reflexivity | now rewrite IH].
Qed.

Lemma read_upto_length (n : nat) : forall q,
  (length (fst (read_upto n q)) <= n)%nat.
Proof.
  induction n as [|n IH]; intros q; simpl; [lia|].
  destruct q as [|[b|] q]; simpl; try lia.
  specialize (IH q). destruct (read_upto n q); simpl in *; lia.
Qed.

Lemma take_length (buf : list Z) (n : Z) :
  0 <= n -> (Z.to_nat n <= length buf)%nat -> Z.of_nat (length (take buf n)) = n.
Proof.
  intros Hn Hle. unfold take. rewrite length_firstn. lia.
Qed.

Lemma echo_buf_prefix (got : list Z) :
  firstn (length got) (echo_buf got) = got.
Proof.
  unfold echo_buf. rewrite firstn_app, Nat.sub_diag, firstn_all. simpl.
  now rewrite app_nil_r.
Qed.

(** A faithful echo is accepted: the bytes are on the line and the echo is
    consumed. *)
Lemma send_echo_ok (tx : list Z) (n : Z) (u : line) (q : list (option Z)) :
  0 <= n -> (Z.to_nat n <= length tx)%nat ->
  tx_up u = true ->
  rxq u = map Some (take tx n) ++ q ->
  _send_and_clear_echo tx n u = (0, mkLine q (txlog u ++ take tx n) true).
Proof.
  intros Hn Hle Hup Hq.
  unfold _send_and_clear_echo, uart_write_bytes, uart_read_bytes.
  rewrite Hup, Z.eqb_refl. cbn [negb rxq].
  assert (Hlen : length (take tx n) = Z.to_nat n)
    by (unfold take; rewrite length_firstn; lia).
  rewrite Hq, <- Hlen, read_upto_all.
  rewrite take_length by assumption. rewrite Z.eqb_refl. cbn [negb].
  rewrite strncmp_same; [reflexivity|].
  rewrite echo_buf_prefix, Hlen. reflexivity.
Qed.

(** Writing is the only thing that touches the log, and it only appends. *)
Lemma send_echo_txlog (tx : list Z) (n : Z) (u : line) :
  exists w, txlog (snd (_send_and_clear_echo tx n u)) = txlog u ++ w
            /\ tx_up (snd (_send_and_clear_echo tx n u)) = tx_up u
            /\ (tx_up u = true -> w = take tx n).
Proof.
  unfold _send_and_clear_echo, uart_write_bytes, uart_read_bytes.
  destruct (tx_up u) eqn:Hup.
  - exists (take tx n). rewrite Z.eqb_refl. cbn [negb rxq].
    destruct (read_upto (Z.to_nat n) (rxq u)) as [got q].
    case_ifs; cbn; auto.
  - exists []. destruct (-1 =? n); cbn; rewrite ?app_nil_r, ?Hup; try (repeat split; congruence).
    destruct (read_upto (Z.to_nat n) (rxq u)) as [got q].
    case_ifs; cbn; rewrite ?app_nil_r, ?Hup; repeat split; congruence.
Qed.

(** The echo check is exact as long as no byte sent is 0x00. *)
Lemma send_echo_exact_without_nul (tx : list Z) (n : Z) (u : line) :
  0 <= n <= EUICC_INTERFACE_BUFSZ -> (Z.to_nat n <= length tx)%nat ->
  Forall (fun c => c <> 0) (take tx n) ->
  fst (_send_and_clear_echo tx n u) = 0 ->
  fst (uart_read_bytes n (snd (uart_write_bytes tx n u))) = take tx n.
Proof.
  intros Hn Hle Hnz. unfold _send_and_clear_echo.
  destruct (uart_write_bytes tx n u) as [k u1]. cbn [snd].
  destruct (negb (k =? n)); [cbn; lia|].
  destruct (uart_read_bytes n u1) as [got u2]. cbn [fst].
  destruct (Z.eqb_spec (Z.of_nat (length got)) n) as [Hgot|]; [|cbn; lia].
  cbn [negb].
  destruct (Z.eqb_spec (strncmp (echo_buf got) tx (Z.to_nat n)) 0) as [Hcmp|];
    [|cbn; lia].
  intros _. apply strncmp_exact in Hcmp; try assumption.
  - assert (Hg : length got = Z.to_nat n) by lia.
    rewrite <- Hg in Hcmp at 1. rewrite echo_buf_prefix in Hcmp. exact Hcmp.
  - unfold echo_buf, EUICC_INTERFACE_BUFSZ in *. rewrite length_app, repeat_length. lia.
Qed.

(** ... and blind to everything after a 0x00 that was echoed faithfully. *)
Lemma send_echo_blind_after_nul (pre post echo : list Z) (u : line) (q : list (option Z)) :
  length echo = length post ->
  tx_up u = true ->
  rxq u = map Some (pre ++ 0 :: echo) ++ q ->
  fst (_send_and_clear_echo (pre ++ 0 :: post) (Z.of_nat (length (pre ++ 0 :: post))) u) = 0.
Proof.
  intros Hlen Hup Hq.
  unfold _send_and_clear_echo, uart_write_bytes, uart_read_bytes.
  rewrite Hup, Z.eqb_refl. cbn [negb rxq]. rewrite Hq, Nat2Z.id.
  replace (length (pre ++ 0 :: post)) with (length (pre ++ 0 :: echo))
    by (rewrite !length_app; simpl; lia).
  rewrite read_upto_all, Z.eqb_refl. cbn [negb].
  unfold echo_buf. rewrite <- app_assoc. cbn [app].
  now rewrite strncmp_stops_at_nul.
Qed.

Lemma after_ack_txlog (o : resp) (tx : list Z) (tx_len : Z) (u : line) :
  exists w, txlog (snd (after_ack o tx tx_len u)) = txlog u ++ w
            /\ (tx_len <= 5 -> w = []).
Proof.
  unfold after_ack. destruct (Z.ltb_spec 5 tx_len) as [Hlt|Hge].
  - destruct (send_echo_txlog (advance tx 5) (tx_len - 5) u) as (w & Hw & _).
    exists w. split; [|lia].
    destruct (_send_and_clear_echo (advance tx 5) (tx_len - 5) u) as [e u1].
    cbn [snd] in Hw.
    destruct (negb (e =? 0)); [exact Hw|].
    destruct (receive_loop _ _ _ _) as [[m n] q].
    destruct (_ && _); exact Hw.
  - exists []. split; [|reflexivity]. rewrite app_nil_r. cbn [negb Z.eqb].
    destruct (receive_loop _ _ _ _) as [[m n] q].
    destruct (_ && _); reflexivity.
Qed.

(** An exchange that passes the length check puts the header on the line
    first; a header-only command puts nothing else there. *)
Lemma after_check_txlog (o : resp) (tx : list Z) (tx_len : Z) (u : line) :
  tx_up u = true ->
  exists w, txlog (snd (after_check o tx tx_len u)) = txlog u ++ take tx 5 ++ w
            /\ (tx_len <= 5 -> w = []).
Proof.
  intros Hup. unfold after_check.
  destruct (send_echo_txlog tx 5 u) as (w0 & Hw0 & _ & Hhdr).
  rewrite (Hhdr Hup) in Hw0. clear Hhdr.
  destruct (_send_and_clear_echo tx 5 u) as [e u1]. cbn [snd] in Hw0.
  destruct (negb (e =? 0)).
  - exists []. rewrite app_nil_r. auto.
  - destruct (procedure_loop (byte_at tx 1) o (rxq u1)) as [[[r o']|] q].
    + exists []. rewrite app_nil_r. auto.
    + destruct (after_ack_txlog o tx tx_len (with_rxq u1 q)) as (w & Hw & Hnil).
      exists w. split; [|exact Hnil].
      rewrite Hw. cbn [with_rxq txlog]. rewrite Hw0. now rewrite <- app_assoc.
Qed.

(** ** The claims *)

(** C1 (the code departs from it).  The claim: every echoed byte is compared
    with the byte sent and any difference fails the exchange, also after a
    0x00 byte.  The code compares with [strncmp]: MANAGE CHANNEL OPEN starts
    with 0x00, and when its first byte comes back intact while the other four
    come back as 0xFF the header is taken as echoed, and the whole exchange
    reports success. *)
Theorem echo_mismatch_after_nul_reports_success :
  let u := mkLine (map Some [0x00; 0xFF; 0xFF; 0xFF; 0xFF; 0x70; 0x01; 0x90; 0x00]) [] true in
  take APDU_OPENLOGICCHANNEL 5 <> [0x00; 0xFF; 0xFF; 0xFF; 0xFF]
  /\ _send_and_clear_echo APDU_OPENLOGICCHANNEL 5 u
     = (0, mkLine (map Some [0x70; 0x01; 0x90; 0x00]) APDU_OPENLOGICCHANNEL true)
  /\ fst (fst (_transmit_raw (local_resp [] 0) APDU_OPENLOGICCHANNEL 5 u)) = 0.
Proof.
  cbv zeta. split; [discriminate|]. split; vm_compute; reflexivity.
Qed.

(** C2 (the code departs from it).  The claim: closing channel 0 transmits
    nothing, and closing channel [n] transmits MANAGE CHANNEL CLOSE with [n]
    patched in, 02 70 80 FF 00 for channel 2.  The first half holds; for
    channel 2 the code puts the unpatched template 00 70 80 FF 00 on the
    line. *)
Theorem close_transmits_unpatched_template :
  (forall junk junk_len u, apdu_interface_logic_channel_close junk junk_len 0 u = u)
  /\ let u := mkLine (map Some [0x00; 0x70; 0x80; 0xFF; 0x00; 0x70; 0x90; 0x00]) [] true in
     txlog (apdu_interface_logic_channel_close [] 0 2 u) = [0x00; 0x70; 0x80; 0xFF; 0x00]
     /\ txlog (apdu_interface_logic_channel_close [] 0 2 u) <> [0x02; 0x70; 0x80; 0xFF; 0x00].
Proof.
  split; [reflexivity|]. cbv zeta. split; vm_compute; [reflexivity | discriminate].
Qed.

(** Whatever the channel and whatever the card answers, the bytes a close
    puts on the line are the template's. *)
Lemma close_txlog (junk : list Z) (junk_len channel : Z) (u : line) :
  channel <> 0 -> tx_up u = true ->
  txlog (apdu_interface_logic_channel_close junk junk_len channel u)
  = txlog u ++ APDU_CLOSELOGICCHANNEL.
Proof.
  intros Hch Hup. unfold apdu_interface_logic_channel_close.
  destruct (Z.eqb_spec channel 0) as [|_]; [contradiction|]. cbn [negb].
  unfold _transmit_raw. change (5 <? 5) with false. cbv iota.
  destruct (after_check_txlog (local_resp junk junk_len) APDU_CLOSELOGICCHANNEL 5 u Hup)
    as (w & Hw & Hnil).
  destruct (after_check _ _ _ u) as [[r o] u1]. cbn [snd] in Hw. cbv beta iota.
  rewrite Hw, (Hnil ltac:(lia)), app_nil_r. reflexivity.
Qed.

(** X19.  For every length the [uint8_t tx_len] of [_transmit_raw] can hold:
    below 5 the command is refused with -1 and neither the line nor the
    caller's out-parameters change; from 5 on the exchange goes on to the
    transmission of the header, whose 5 bytes are the next bytes on the
    line. *)
Theorem command_length_check (o : resp) (tx : list Z) (tx_len : Z) (u : line) :
  0 <= tx_len <= 255 ->
  (tx_len < 5 -> _transmit_raw o tx tx_len u = (-1, o, u))
  /\ (5 <= tx_len ->
      _transmit_raw o tx tx_len u = after_check o tx tx_len u
      /\ (tx_up u = true ->
          exists w, txlog (snd (_transmit_raw o tx tx_len u)) = txlog u ++ take tx 5 ++ w)).
Proof.
  intros _. unfold _transmit_raw. split; intros H.
  - destruct (Z.ltb_spec tx_len 5); [reflexivity | lia].
  - destruct (Z.ltb_spec tx_len 5); [lia|]. split; [reflexivity|].
    intros Hup. destruct (after_check_txlog o tx tx_len u Hup) as (w & Hw & _).
    now exists w.
Qed.

Lemma command_length_check_witness :
  _transmit_raw (local_resp [] 0) [0x00; 0x70; 0x00; 0x00] 4 (mkLine [Some 0x3B] [0x55] true)
  = (-1, local_resp [] 0, mkLine [Some 0x3B] [0x55] true)
  /\ exists w,
       txlog (snd (_transmit_raw (local_resp [] 0) APDU_OPENLOGICCHANNEL 5 (mkLine [] [0x55] true)))
       = [0x55] ++ take APDU_OPENLOGICCHANNEL 5 ++ w.
Proof.
  split.
  - refine (proj1 (command_length_check (local_resp [] 0) [0x00; 0x70; 0x00; 0x00] 4
                     (mkLine [Some 0x3B] [0x55] true) _) _); lia.
  - refine (proj2 (proj2 (command_length_check (local_resp [] 0) APDU_OPENLOGICCHANNEL 5
                            (mkLine [] [0x55] true) _) _) _); [lia | lia | reflexivity].
Defined.

(** *** The response-length table *)

Lemma byte_at_skip (h l : list Z) (k : Z) :
  0 <= k -> byte_at (h ++ l) (Z.of_nat (length h) + k) = byte_at l k.
Proof.
  intros Hk. unfold byte_at.
  replace (Z.to_nat (Z.of_nat (length h) + k)) with (length h + Z.to_nat k)%nat by lia.
  now rewrite app_nth2_plus.
Qed.

Lemma byte_at_app_l (l j : list Z) (k : Z) :
  0 <= k < Z.of_nat (length l) -> byte_at (l ++ j) k = byte_at l k.
Proof.
  intros Hk. unfold byte_at. apply app_nth1. lia.
Qed.

Lemma nth_last_index (l : list Z) (d : Z) :
  l <> [] -> nth (length l - 1) l d = last l d.
Proof.
  induction l as [|a l IH]; [congruence|]. intros _.
  destruct l as [|b l]; [reflexivity|].
  change (last (a :: b :: l) d) with (last (b :: l) d).
  rewrite <- IH by discriminate. simpl. now rewrite Nat.sub_0_r.
Qed.

Lemma lor_shiftl_be16 (hi lo : Z) :
  0 <= hi -> is_byte lo -> Z.lor (Z.shiftl hi 8) lo = Iso7816.be16 hi lo.
Proof.
  intros Hhi [Hlo Hlt]. unfold Iso7816.be16.
  pose proof (Z.add_lor_land (Z.shiftl hi 8) lo) as Hadd.
  assert (Hland : Z.land (Z.shiftl hi 8) lo = 0).
  { apply Z.bits_inj'. intros n Hn. rewrite Z.land_spec, Z.bits_0.
    destruct (Z.ltb_spec n 8) as [Hn8|Hn8].
    - now rewrite Z.shiftl_spec_low.
    - destruct (Z.eq_dec lo 0) as [->|Hnz]; [now rewrite Z.bits_0, andb_false_r|].
      rewrite (Z.bits_above_log2 lo n), andb_false_r; try lia.
      assert (Z.log2 lo < 8) by (apply Z.log2_lt_pow2; lia). lia. }
  rewrite Hland, Z.add_0_r in Hadd. rewrite Hadd, Z.shiftl_mul_pow2 by lia.
  change (2 ^ 8) with 256. lia.
Qed.

Lemma is_byte_nth (l : list Z) (n : nat) :
  Forall is_byte l -> is_byte (nth n l 0).
Proof.
  intros H. revert n. induction H as [|a l Ha _ IH]; intros [|n]; simpl;
    unfold is_byte in *; try lia; auto.
Qed.

(** X17.  For a short-form command of at most 255 bytes, the length the
    [uint8_t tx_len] of [_transmit_raw] can hold (header with fifth byte
    [p3], then [body], with [p3] nonzero or no body), the number of bytes to
    wait for is the one of the case table: header only,
    65535 for [p3 = 0] and [p3 + 2] otherwise; header, Lc and exactly Lc
    bytes, 2; one byte more, 65535 when that byte is 0 and the byte plus 2
    otherwise; any other length, 65535.  What lies in memory after the
    command does not matter. *)
Theorem short_form_expected_length (cla ins p1 p2 p3 : Z) (body junk : list Z) :
  5 + Z.of_nat (length body) <= 255 ->
  p3 <> 0 \/ body = [] ->
  to_recv_of ([cla; ins; p1; p2; p3] ++ body ++ junk) (5 + Z.of_nat (length body))
  = Iso7816.expected_short p3 body.
Proof.
  intros _ Hshort. unfold to_recv_of, Iso7816.expected_short, Iso7816.with_status_word,
    Iso7816.undetermined.
  change (byte_at ([cla; ins; p1; p2; p3] ++ body ++ junk) 4) with p3.
  destruct body as [|b body].
  - cbn [length Z.of_nat]. change (5 + 0) with 5. cbn [Z.ltb Z.compare Pos.compare
      Pos.compare_cont Z.eqb Pos.eqb andb]. rewrite andb_false_r. reflexivity.
  - destruct Hshort as [Hp3|]; [|discriminate].
    set (n := Z.of_nat (length (b :: body))).
    assert (Hn : 0 < n) by (subst n; cbn [length]; lia).
    destruct (Z.eqb_spec p3 0) as [|_]; [contradiction|]. cbn [andb].
    destruct (Z.eqb_spec (5 + n) 5) as [|_]; [lia|].
    destruct (Z.eqb_spec n 0) as [|_]; [lia|].
    assert (Hlast : byte_at ([cla; ins; p1; p2; p3] ++ (b :: body) ++ junk) (5 + n - 1)
                    = last (b :: body) 0).
    { change 5 with (Z.of_nat (length [cla; ins; p1; p2; p3])) at 1.
      rewrite <- Z.add_sub_assoc, byte_at_skip by lia.
      rewrite byte_at_app_l by lia. unfold byte_at.
      replace (Z.to_nat (n - 1)) with (length (b :: body) - 1)%nat by lia.
      apply nth_last_index. discriminate. }
    rewrite Hlast.
    destruct (Z.eqb_spec p3 (5 + n - 4 - 1)), (Z.eqb_spec p3 (5 + n - 4 - 2)),
      (Z.eqb_spec (5 + n) (5 + p3)), (Z.eqb_spec n p3), (Z.eqb_spec n (p3 + 1));
      cbn [negb andb]; try lia; try reflexivity.
    destruct (last (b :: body) 0 =? 0); reflexivity.
Qed.

Lemma short_form_expected_length_witness :
  to_recv_of ([0x00; 0xB0; 0x00; 0x00; 0x05] ++ [] ++ [0xEE]) (5 + Z.of_nat (length (@nil Z))) = 7
  /\ to_recv_of ([0x00; 0xD6; 0x00; 0x00; 0x03] ++ [1; 2; 3] ++ []) (5 + Z.of_nat (length [1; 2; 3])) = 2.
Proof.
  split.
  - refine (short_form_expected_length 0x00 0xB0 0x00 0x00 0x05 [] [0xEE] _
              (or_intror eq_refl)).
    simpl; lia.
  - refine (short_form_expected_length 0x00 0xD6 0x00 0x00 0x03 [1; 2; 3] [] _ (or_introl _)).
    + simpl; lia.
    + discriminate.
Defined.

(** X18.  For an extended-form command of at most 255 bytes, the length the
    [uint8_t tx_len] of [_transmit_raw] can hold
    (header with fifth byte 0, then a non-empty [body]), the number of bytes
    to wait for follows the same table over 2-byte big-endian fields: a
    2-byte body is Le, giving 65535 for 0 and Le + 2 otherwise; Lc and
    exactly Lc bytes give 2; two bytes more are Le, giving 65535 for 0 and
    Le + 2 otherwise; any other length gives 65535. *)
Theorem extended_form_expected_length (cla ins p1 p2 : Z) (body junk : list Z) :
  body <> [] ->
  Forall is_byte body -> Forall is_byte junk ->
  5 + Z.of_nat (length body) <= 255 ->
  to_recv_of ([cla; ins; p1; p2; 0] ++ body ++ junk) (5 + Z.of_nat (length body))
  = Iso7816.expected_extended body.
Proof.
  intros Hne Hbody Hjunk Hu8.
  unfold to_recv_of.
  change (byte_at ([cla; ins; p1; p2; 0] ++ body ++ junk) 4) with 0.
  destruct body as [|b0 body]; [congruence|]. clear Hne.
  inversion Hbody as [|? ? Hb0 Hbody']; subst.
  change (0 =? 0) with true. cbn [andb].
  destruct (Z.ltb_spec 5 (5 + Z.of_nat (length (b0 :: body)))) as [_|Hc];
    [|cbn [length] in Hc; lia].
  destruct body as [|b1 body].
  - (* one byte: no complete length field *)
    cbn [length Z.of_nat Pos.of_succ_nat]. change (5 + 1) with 6.
    change (6 =? 7) with false. cbv iota.
    change ((6 - 4) mod 65536 - 3) with (-1). change ((6 - 4) mod 65536 - 5) with (-3).
    assert (Hlc : 0 <= ntohs_at ([cla; ins; p1; p2; 0] ++ [b0] ++ junk) 5).
    { unfold ntohs_at. apply Z.lor_nonneg. split.
      - apply Z.shiftl_nonneg. change (byte_at _ 5) with b0. unfold is_byte in Hb0; lia.
      - change (byte_at ([cla; ins; p1; p2; 0] ++ [b0] ++ junk) (5 + 1)) with (nth 0 junk 0).
        pose proof (is_byte_nth junk 0 Hjunk) as Hj. unfold is_byte in Hj; lia. }
    destruct (Z.eqb_spec (ntohs_at ([cla; ins; p1; p2; 0] ++ [b0] ++ junk) 5) (-1)); [lia|].
    destruct (Z.eqb_spec (ntohs_at ([cla; ins; p1; p2; 0] ++ [b0] ++ junk) 5) (-3)); [lia|].
    reflexivity.
  - inversion Hbody' as [|? ? Hb1 Hrest]; subst.
    assert (Hlc : ntohs_at ([cla; ins; p1; p2; 0] ++ (b0 :: b1 :: body) ++ junk) 5
                  = Iso7816.be16 b0 b1).
    { unfold ntohs_at. change (byte_at _ 5) with b0. change (byte_at _ (5 + 1)) with b1.
      apply lor_shiftl_be16; [unfold is_byte in Hb0; lia | exact Hb1]. }
    rewrite Hlc.
    destruct body as [|b2 body].
    + (* header | 00 | Le *)
      reflexivity.
    + set (rest := b2 :: body) in *.
      set (n := Z.of_nat (length rest)).
      assert (Hn : 0 < n) by (subst n rest; cbn [length]; lia).
      assert (Hlen : 5 + Z.of_nat (length (b0 :: b1 :: rest)) = 7 + n)
        by (subst n; cbn [length]; lia).
      rewrite Hlen in *.
      unfold Iso7816.expected_extended. fold rest. fold n.
      assert (Hlc0 : 0 <= Iso7816.be16 b0 b1)
        by (unfold Iso7816.be16, is_byte in *; lia).
      destruct (Z.eqb_spec (7 + n) 7) as [|_]; [lia|].
      rewrite (Z.mod_small (7 + n - 4) 65536) by lia.
      set (lc := Iso7816.be16 b0 b1) in *.
      destruct (Z.eqb_spec lc (7 + n - 4 - 3)), (Z.eqb_spec lc (7 + n - 4 - 5)),
        (Z.eqb_spec (7 + n) (7 + lc)), (Z.eqb_spec n lc), (Z.eqb_spec n (lc + 2));
        cbn [negb andb]; try lia; try reflexivity.
      (* header | 00 | Lc | data | Le *)
      assert (Hle : ntohs_at ([cla; ins; p1; p2; 0] ++ (b0 :: b1 :: rest) ++ junk) (7 + n - 2)
                    = Iso7816.be16 (nth (Z.to_nat lc) rest 0) (nth (S (Z.to_nat lc)) rest 0)).
      { unfold ntohs_at.
        change ([cla; ins; p1; p2; 0] ++ (b0 :: b1 :: rest) ++ junk)
          with ([cla; ins; p1; p2; 0; b0; b1] ++ rest ++ junk).
        replace (7 + n - 2) with (Z.of_nat (length [cla; ins; p1; p2; 0; b0; b1]) + lc)
          by (cbn [length]; lia).
        rewrite <- Z.add_assoc.
        rewrite !byte_at_skip, !byte_at_app_l by lia.
        unfold byte_at. replace (Z.to_nat (lc + 1)) with (S (Z.to_nat lc)) by lia.
        pose proof (is_byte_nth rest (Z.to_nat lc) Hrest) as Hhi.
        apply lor_shiftl_be16; [unfold is_byte in Hhi; lia | now apply is_byte_nth]. }
      rewrite Hle. reflexivity.
Qed.

Lemma extended_form_expected_length_witness :
  to_recv_of ([0x80; 0xE2; 0x91; 0x00; 0x00] ++ [0x00; 0x02; 0xAA; 0xBB; 0x01; 0x00] ++ [])
             (5 + Z.of_nat (length [0x00; 0x02; 0xAA; 0xBB; 0x01; 0x00]))
  = Iso7816.expected_extended [0x00; 0x02; 0xAA; 0xBB; 0x01; 0x00].
Proof.
  apply (extended_form_expected_length 0x80 0xE2 0x91 0x00
           [0x00; 0x02; 0xAA; 0xBB; 0x01; 0x00] []).
  - discriminate.
  - repeat constructor; unfold is_byte; lia.
  - constructor.
  - simpl; lia.
Defined.

(** *** The response buffer *)

Lemma length_upd (n : nat) (v : Z) (l : list Z) : length (upd n v l) = length l.
Proof.
  revert n. induction l as [|x l IH]; intros [|n]; simpl; auto.
Qed.

Lemma nth_upd_same (n : nat) (v : Z) (l : list Z) :
  (n < length l)%nat -> nth n (upd n v l) 0 = v.
Proof.
  revert n. induction l as [|x l IH]; intros [|n] H; simpl in *; try lia; auto.
  apply IH. lia.
Qed.

Lemma nth_upd_other (n k : nat) (v : Z) (l : list Z) :
  n <> k -> nth k (upd n v l) 0 = nth k l 0.
Proof.
  revert n k. induction l as [|x l IH]; intros [|n] [|k] H; simpl; auto; try congruence.
Qed.

Lemma load_store_same (m : rxmem) (i v : Z) :
  0 <= i -> load (store m i v) i = v.
Proof.
  intros Hi. unfold load, store.
  destruct (Z.ltb_spec i (Z.of_nat (length (cells m)))) as [Hlt|Hge]; cbn [cells spill].
  - rewrite length_upd. destruct (Z.ltb_spec i (Z.of_nat (length (cells m)))); [|lia].
    apply nth_upd_same. lia.
  - destruct (Z.ltb_spec i (Z.of_nat (length (cells m)))); [lia|].
    cbn [find fst snd]. now rewrite Z.eqb_refl.
Qed.

Lemma load_store_other (m : rxmem) (i j v : Z) :
  0 <= i -> 0 <= j -> i <> j -> load (store m i v) j = load m j.
Proof.
  intros Hi Hj Hij. unfold load, store.
  destruct (Z.ltb_spec i (Z.of_nat (length (cells m)))) as [Hlt|Hge]; cbn [cells spill].
  - rewrite length_upd. destruct (Z.ltb_spec j (Z.of_nat (length (cells m)))); [|reflexivity].
    apply nth_upd_other. lia.
  - destruct (Z.ltb_spec j (Z.of_nat (length (cells m)))); [reflexivity|].
    cbn [find fst snd]. destruct (Z.eqb_spec i j); [contradiction | reflexivity].
Qed.

Lemma status_word_response (m : rxmem) (sw1 sw2 : Z) :
  response (mkResp (store (store m 0 sw1) 1 sw2) 2) = [sw1; sw2].
Proof.
  change (response (mkResp (store (store m 0 sw1) 1 sw2) 2))
    with [load (store (store m 0 sw1) 1 sw2) 0; load (store (store m 0 sw1) 1 sw2) 1].
  rewrite load_store_other, !load_store_same by lia. reflexivity.
Qed.

(** *** Procedure bytes *)

(** C5.  Once the header has gone out and its echo is read, the byte [pb]
    that follows decides: equal to INS ([tx[1]]), the exchange goes on with
    the body and the receive loop; otherwise equal to 0x60, the exchange is
    the one that would have happened without that byte; otherwise it is SW1,
    the next byte is SW2, a third byte in time fails the exchange, and
    without one the exchange returns 0 with the 2-byte response SW1 SW2,
    nothing but the header having been put on the line and nothing more
    read. *)
Theorem procedure_byte_classification
    (o : resp) (tx : list Z) (tx_len : Z) (u : line) (pb : Z) (q : list (option Z)) :
  5 <= tx_len -> (5 <= length tx)%nat -> tx_up u = true ->
  rxq u = map Some (take tx 5) ++ Some pb :: q ->
  let sent q' := mkLine q' (txlog u ++ take tx 5) true in
  let status sw2 := mkResp (store (store (rx o) 0 pb) 1 sw2) 2 in
  _transmit_raw o tx tx_len u =
    (if pb =? byte_at tx 1 then after_ack o tx tx_len (sent q)
     else if pb =? 0x60
     then _transmit_raw o tx tx_len (with_rxq u (map Some (take tx 5) ++ q))
     else match q with
          | [] => (-1, o, sent [])
          | None :: q' => (-1, o, sent q')
          | Some sw2 :: q' =>
              match q' with
              | Some _ :: q'' => (-1, o, sent q'')
              | None :: q'' => (0, status sw2, sent q'')
              | [] => (0, status sw2, sent [])
              end
          end)
  /\ forall sw2, response (status sw2) = [pb; sw2] /\ rx_len (status sw2) = 2.
Proof.
  intros Hlen Hbuf Hup Hq sent status. split.
  - unfold _transmit_raw. destruct (Z.ltb_spec tx_len 5) as [|_]; [lia|].
    unfold after_check.
    rewrite (send_echo_ok tx 5 u (Some pb :: q)) by (auto; lia).
    rewrite (send_echo_ok tx 5 (with_rxq u (map Some (take tx 5) ++ q)) q)
      by (auto; lia).
    cbn [negb Z.eqb rxq with_rxq txlog tx_up procedure_loop]. fold (sent q).
    destruct (pb =? byte_at tx 1); [reflexivity|].
    destruct (pb =? 0x60); cbn [negb].
    + reflexivity.
    + destruct q as [|[sw2|] [|[x|] q'']]; reflexivity.
  - intros sw2. split; [apply status_word_response | reflexivity].
Qed.

Lemma procedure_byte_classification_witness :
  _transmit_raw (local_resp [] 0) [0x00; 0xA4; 0x04; 0x00; 0x02; 0xAA; 0xBB] 7
    (mkLine (map Some (take [0x00; 0xA4; 0x04; 0x00; 0x02; 0xAA; 0xBB] 5)
             ++ Some 0x6A :: [Some 0x82; None; Some 0x07]) [] true)
  = (0, mkResp (store (store (rx (local_resp [] 0)) 0 0x6A) 1 0x82) 2,
     mkLine [Some 0x07] [0x00; 0xA4; 0x04; 0x00; 0x02] true).
Proof.
  refine (proj1 (procedure_byte_classification (local_resp [] 0)
                   [0x00; 0xA4; 0x04; 0x00; 0x02; 0xAA; 0xBB] 7
                   (mkLine (map Some (take [0x00; 0xA4; 0x04; 0x00; 0x02; 0xAA; 0xBB] 5)
                            ++ Some 0x6A :: [Some 0x82; None; Some 0x07]) [] true)
                   0x6A [Some 0x82; None; Some 0x07] _ _ _ _)).
  - lia.
  - simpl; lia.
  - reflexivity.
  - reflexivity.
Defined.

(** *** The ATR listener *)

Lemma land_pow2_testbit (a n : Z) :
  0 <= n -> (Z.land a (2 ^ n) =? 0) = negb (Z.testbit a n).
Proof.
  intros Hn.
  assert (H : Z.land a (2 ^ n) = if Z.testbit a n then 2 ^ n else 0).
  { apply Z.bits_inj'. intros m Hm. rewrite Z.land_spec, Z.pow2_bits_eqb by assumption.
    destruct (Z.eqb_spec n m) as [->|Hnm].
    - destruct (Z.testbit a m); [|now rewrite Z.bits_0].
      now rewrite Z.pow2_bits_eqb, Z.eqb_refl.
    - rewrite andb_false_r. destruct (Z.testbit a n); [|now rewrite Z.bits_0].
      rewrite Z.pow2_bits_eqb by assumption. symmetry. now apply Z.eqb_neq. }
  rewrite H. destruct (Z.testbit a n); [|reflexivity].
  apply Z.eqb_neq. pose proof (Z.pow_pos_nonneg 2 n). lia.
Qed.

(** The bits [_wait_for_card] tests are the four bits of the high nibble. *)
Lemma interface_bits (t0 : Z) :
  length (filter (fun i => negb (Z.land t0 (Z.shiftl 0x10 i) =? 0)) [0; 1; 2; 3])
  = Iso7816.interface_count t0.
Proof.
  unfold Iso7816.interface_count. cbn [filter].
  change (Z.shiftl 0x10 0) with (2 ^ 4). change (Z.shiftl 0x10 1) with (2 ^ 5).
  change (Z.shiftl 0x10 2) with (2 ^ 6). change (Z.shiftl 0x10 3) with (2 ^ 7).
  rewrite !land_pow2_testbit by lia. rewrite !negb_involutive.
  destruct (Z.testbit t0 4), (Z.testbit t0 5), (Z.testbit t0 6), (Z.testbit t0 7);
    reflexivity.
Qed.

Section Atr.

Variable t0 : Z.

Lemma skip_markers_ok (k : nat) (q : list (option Z)) :
  t0 <> 0x3B ->
  skip_markers (repeat (Some 0x3B) k ++ Some t0 :: q) = (Some t0, q).
Proof.
  intros Ht0. induction k as [|k IH]; cbn [repeat app skip_markers].
  - destruct (Z.eqb_spec t0 0x3B); [contradiction | reflexivity].
  - exact IH.
Qed.

Lemma read_interface_ok (idx : list Z) : forall bs q,
  length bs = length (filter (fun i => negb (Z.land t0 (Z.shiftl 0x10 i) =? 0)) idx) ->
  read_interface t0 idx (map Some bs ++ q) = (true, q).
Proof.
  induction idx as [|i idx IH]; intros bs q Hlen; cbn [filter read_interface] in *.
  - destruct bs; [reflexivity | discriminate].
  - destruct (negb (Z.land t0 (Z.shiftl 0x10 i) =? 0)).
    + destruct bs as [|b bs]; [discriminate|]. cbn [map app]. apply IH.
      now injection Hlen.
    + now apply IH.
Qed.

Lemma read_interface_short (idx : list Z) : forall bs t,
  (length bs < length (filter (fun i => negb (Z.land t0 (Z.shiftl 0x10 i) =? 0)%Z) idx))%nat ->
  buffered t = O ->
  fst (read_interface t0 idx (map Some bs ++ t)) = false.
Proof.
  induction idx as [|i idx IH]; intros bs t Hlen Ht; cbn [filter read_interface] in *.
  - cbn in Hlen. lia.
  - destruct (negb (Z.land t0 (Z.shiftl 0x10 i) =? 0)).
    + destruct bs as [|b bs]; cbn [map app].
      * destruct t as [|[x|] t]; try reflexivity. discriminate.
      * apply IH; [cbn [length] in Hlen; lia | exact Ht].
    + now apply IH.
Qed.

Lemma read_historical_ok (bs : list Z) (q : list (option Z)) :
  read_historical (length bs) (map Some bs ++ q) = (true, q).
Proof.
  induction bs as [|b bs IH]; [reflexivity | exact IH].
Qed.

Lemma read_historical_short (n : nat) : forall bs t,
  (length bs < n)%nat -> buffered t = O ->
  fst (read_historical n (map Some bs ++ t)) = false.
Proof.
  induction n as [|n IH]; intros bs t Hlen Ht; [lia|].
  destruct bs as [|b bs]; cbn [map app read_historical].
  - destruct t as [|[x|] t]; try reflexivity. discriminate.
  - apply IH; [cbn [length] in Hlen; lia | exact Ht].
Qed.

Lemma drain_skipn (s : nat) : forall q, drain s q = skipn s q.
Proof.
  induction s as [|s IH]; intros q; [reflexivity|].
  destruct q as [|e q]; cbn [drain tl skipn]; rewrite IH; [apply skipn_nil | reflexivity].
Qed.

(** C7.  After the start marker (repeated or not) and T0, the listener reads
    one byte for each bit set in T0's high nibble and then [T0 & 0x0F] bytes:
    when that many bytes [bs] follow T0 it returns 0, having read them and
    whatever was still buffered behind them, and when fewer follow before the
    line falls silent it returns -1. *)
Theorem atr_drain (u : line) (k : nat) (bs : list Z) (rest : list (option Z)) :
  t0 <> 0x3B ->
  rxq u = Some 0x3B :: repeat (Some 0x3B) k ++ Some t0 :: map Some bs ++ rest ->
  (length bs = (Iso7816.interface_count t0 + Iso7816.historical_count t0)%nat ->
   _wait_for_card u = (0, with_rxq u (skipn (buffered rest) rest)))
  /\ ((length bs < Iso7816.interface_count t0 + Iso7816.historical_count t0)%nat ->
      buffered rest = O ->
      fst (_wait_for_card u) = -1).
Proof.
  intros Ht0 Hq. unfold _wait_for_card. rewrite Hq.
  change (negb (0x3B =? 0x3B)) with false. cbv iota.
  rewrite (skip_markers_ok k _ Ht0).
  pose proof (interface_bits t0) as Hbits.
  unfold Iso7816.historical_count.
  set (ic := Iso7816.interface_count t0) in *.
  set (hc := Z.to_nat (Z.land t0 0x0F)).
  split.
  - intros Hlen.
    rewrite <- (firstn_skipn ic bs), map_app, <- app_assoc.
    rewrite read_interface_ok
      by (rewrite Hbits, length_firstn; lia).
    replace hc with (length (skipn ic bs)) by (rewrite length_skipn; lia).
    rewrite read_historical_ok, drain_skipn. reflexivity.
  - intros Hlen Hsilent.
    destruct (Nat.lt_ge_cases (length bs) ic) as [Hlt|Hge].
    + pose proof (read_interface_short [0; 1; 2; 3] bs rest) as Hfail.
      rewrite Hbits in Hfail. specialize (Hfail Hlt Hsilent).
      destruct (read_interface t0 [0; 1; 2; 3] (map Some bs ++ rest)) as [[|] q3];
        [discriminate | reflexivity].
    + rewrite <- (firstn_skipn ic bs), map_app, <- app_assoc.
      rewrite read_interface_ok
        by (rewrite Hbits, length_firstn; lia).
      pose proof (read_historical_short hc (skipn ic bs) rest) as Hfail.
      rewrite length_skipn in Hfail. specialize (Hfail ltac:(lia) Hsilent).
      destruct (read_historical hc (map Some (skipn ic bs) ++ rest)) as [[|] q4];
        [discriminate | reflexivity].
Qed.

End Atr.

(** T0 = 0x97: two interface bytes and seven historical bytes. *)
Lemma atr_drain_witness :
  (Iso7816.interface_count 0x97 = 2%nat /\ Iso7816.historical_count 0x97 = 7%nat)
  /\ _wait_for_card (mkLine (Some 0x3B :: repeat (Some 0x3B) 0 ++ Some 0x97
                             :: map Some [1; 2; 3; 4; 5; 6; 7; 8; 9] ++ [None; Some 0xAA]) [] true)
     = (0, mkLine [None; Some 0xAA] [] true)
  /\ fst (_wait_for_card (mkLine (Some 0x3B :: repeat (Some 0x3B) 0 ++ Some 0x97
                                  :: map Some [1; 2; 3; 4; 5; 6; 7; 8] ++ [None; Some 0xAA]) [] true))
     = -1.
Proof.
  split; [split; reflexivity|]. split.
  - refine (proj1 (atr_drain 0x97 (mkLine _ [] true) 0 [1; 2; 3; 4; 5; 6; 7; 8; 9]
                     [None; Some 0xAA] _ eq_refl) _).
    + discriminate.
    + reflexivity.
  - refine (proj2 (atr_drain 0x97 (mkLine _ [] true) 0 [1; 2; 3; 4; 5; 6; 7; 8]
                     [None; Some 0xAA] _ eq_refl) _ _).
    + discriminate.
    + vm_compute. lia.
    + reflexivity.
Defined.

(** *** The receive loop and the caller's buffer *)

(** The loop stays inside the array when it waits for no more bytes than the
    array holds. *)
Lemma receive_loop_within (to_recv : Z) (q : list (option Z)) : forall m len,
  to_recv <= Z.of_nat (length (cells m)) -> 0 <= len -> spill m = [] ->
  let '(m', _, _) := receive_loop to_recv m len q in
  spill m' = [] /\ length (cells m') = length (cells m).
Proof.
  induction q as [|[b|] q IH]; intros m len Hcap Hlen Hsp; cbn [receive_loop].
  - destruct (len <? to_recv); auto.
  - destruct (Z.ltb_spec len to_recv) as [Hlt|]; [|auto].
    assert (Hst : spill (store m len b) = []
                  /\ length (cells (store m len b)) = length (cells m)).
    { unfold store. destruct (Z.ltb_spec len (Z.of_nat (length (cells m)))); [|lia].
      cbn [spill cells]. rewrite length_upd. auto. }
    destruct Hst as [Hsp' Hlen'].
    destruct ((to_recv =? 2) && (load (store m len b) len =? 0x60)).
    + specialize (IH (store m len b) len). rewrite Hlen' in IH.
      specialize (IH Hcap Hlen Hsp').
      destruct (receive_loop to_recv (store m len b) len q) as [[m' n] q']. exact IH.
    + specialize (IH (store m len b) (len + 1)). rewrite Hlen' in IH.
      specialize (IH Hcap ltac:(lia) Hsp').
      destruct (receive_loop to_recv (store m len b) (len + 1) q) as [[m' n] q']. exact IH.
  - destruct (len <? to_recv); auto.
Qed.

(** What the loop counts into the response are bytes of the line. *)
Lemma receive_loop_bytes (to_recv : Z) (q : list (option Z)) : forall m len,
  wf_rxq q -> 0 <= len ->
  (forall i, 0 <= i < len -> is_byte (load m i)) ->
  let '(m', n, _) := receive_loop to_recv m len q in
  len <= n /\ forall i, 0 <= i < n -> is_byte (load m' i).
Proof.
  induction q as [|[b|] q IH]; intros m len Hwf Hlen Hinv; cbn [receive_loop].
  - destruct (len <? to_recv); split; auto; lia.
  - inversion Hwf as [|? ? Hb Hwf']; subst.
    destruct (Z.ltb_spec len to_recv) as [Hlt|]; [|split; auto; lia].
    destruct ((to_recv =? 2) && (load (store m len b) len =? 0x60)).
    + specialize (IH (store m len b) len Hwf' Hlen).
      destruct (receive_loop to_recv (store m len b) len q) as [[m' n] q'].
      apply IH. intros i Hi. rewrite load_store_other by lia. now apply Hinv.
    + specialize (IH (store m len b) (len + 1) Hwf' ltac:(lia)).
      destruct (receive_loop to_recv (store m len b) (len + 1) q) as [[m' n] q'].
      destruct IH as [Hn Hall].
      * intros i Hi. destruct (Z.eq_dec i len) as [->|Hne].
        -- now rewrite load_store_same.
        -- rewrite load_store_other by lia. apply Hinv. lia.
      * split; [lia | exact Hall].
  - destruct (len <? to_recv); split; auto; lia.
Qed.

(** C9 (the code departs from it).  The claim: no received byte is stored
    past the 264 bytes of the response buffer.  The loop is bounded by the
    number of bytes it waits for and not by the buffer: for the header-only
    command 00 CA 00 00 00 that number is 65535, and when the card sends 265
    bytes without a pause the last one is stored at index 264, behind the
    block [apdu_interface_transmit] allocated. *)
Theorem receive_loop_stores_past_buffer :
  let tx := [0x00; 0xCA; 0x00; 0x00; 0x00] in
  let u := mkLine (map Some tx ++ Some 0xCA :: repeat (Some 0x01) 265) [] true in
  to_recv_of tx 5 = 65535
  /\ exists m,
       apdu_interface_transmit (Some []) 0 tx 5 u = (0, Some m, 265, mkLine [] tx true)
       /\ Z.of_nat (length (cells m)) = EUICC_INTERFACE_BUFSZ
       /\ spill m = [(264, 0x01)].
Proof.
  cbv zeta. split; [reflexivity|].
  eexists. split; [vm_compute; reflexivity|]. split; vm_compute; reflexivity.
Qed.

(** The length [apdu_interface_transmit] is given reaches [_transmit_raw]
    through a [uint8_t]: only its low 8 bits count. *)
Lemma apdu_interface_transmit_length_mod
    (heap : option (list Z)) (rx_len0 : Z) (tx : list Z) (tx_len : Z) (u : line) :
  apdu_interface_transmit heap rx_len0 tx (tx_len + 256) u
  = apdu_interface_transmit heap rx_len0 tx tx_len u.
Proof.
  unfold apdu_interface_transmit.
  replace ((tx_len + 256) mod 256) with (tx_len mod 256); [reflexivity|].
  now rewrite <- (Z_mod_plus_full tx_len 1 256), Z.mul_1_l.
Qed.

(** *** Well-formed lines stay well-formed *)

Lemma read_upto_wf (n : nat) : forall q,
  wf_rxq q -> wf_rxq (snd (read_upto n q)).
Proof.
  induction n as [|n IH]; intros q Hwf; cbn [read_upto]; [exact Hwf|].
  destruct q as [|[b|] q]; cbn [snd]; try exact Hwf.
  - inversion Hwf; subst. specialize (IH q ltac:(assumption)).
    destruct (read_upto n q); exact IH.
  - now inversion Hwf.
Qed.

Lemma send_echo_wf (tx : list Z) (n : Z) (u : line) :
  wf_rxq (rxq u) -> wf_rxq (rxq (snd (_send_and_clear_echo tx n u))).
Proof.
  intros Hwf. unfold _send_and_clear_echo, uart_write_bytes, uart_read_bytes.
  assert (Hr := read_upto_wf (Z.to_nat n) (rxq u) Hwf).
  destruct (tx_up u); cbn [rxq].
  - destruct (negb (n =? n)); [exact Hwf|].
    destruct (read_upto (Z.to_nat n) (rxq u)) as [got q]. cbn [snd] in Hr.
    case_ifs; exact Hr.
  - destruct (negb (-1 =? n)); [exact Hwf|].
    destruct (read_upto (Z.to_nat n) (rxq u)) as [got q]. cbn [snd] in Hr.
    case_ifs; exact Hr.
Qed.

Lemma procedure_loop_bytes (ins : Z) (o : resp) (q : list (option Z)) :
  wf_rxq q ->
  match procedure_loop ins o q with
  | (Some (r, o'), _) =>
      r = 0 -> forall i, 0 <= i < rx_len o' -> is_byte (load (rx o') i)
  | (None, q') => wf_rxq q'
  end.
Proof.
  induction q as [|[ack|] q IH]; intros Hwf; cbn [procedure_loop]; try discriminate.
  inversion Hwf as [|? ? Hack Hwf']; subst.
  destruct (ack =? ins); [exact Hwf'|].
  destruct (negb (ack =? 0x60)); [|exact (IH Hwf')].
  destruct q as [|[sw2|] q]; try discriminate.
  inversion Hwf' as [|? ? Hsw2 _]; subst.
  assert (Hst : forall i, 0 <= i < 2 ->
                  is_byte (load (store (store (rx o) 0 ack) 1 sw2) i)).
  { intros i Hi. destruct (Z.eq_dec i 0) as [->|]; [|replace i with 1 by lia].
    - rewrite load_store_other, load_store_same by lia. exact Hack.
    - rewrite load_store_same by lia. exact Hsw2. }
  destruct q as [|[x|] q]; cbn [rx rx_len]; try discriminate; intros _; exact Hst.
Qed.

(** A successful exchange hands back bytes that came over the line. *)
Lemma transmit_raw_response_bytes (o : resp) (tx : list Z) (tx_len : Z) (u : line) :
  wf_rxq (rxq u) ->
  let '(r, o', _) := _transmit_raw o tx tx_len u in
  r = 0 -> forall i, 0 <= i < rx_len o' -> is_byte (load (rx o') i).
Proof.
  intros Hwf. unfold _transmit_raw. destruct (tx_len <? 5); [discriminate|].
  unfold after_check.
  pose proof (send_echo_wf tx 5 u Hwf) as Hwf1.
  destruct (_send_and_clear_echo tx 5 u) as [e u1]. cbn [snd] in Hwf1.
  destruct (negb (e =? 0)); [discriminate|].
  pose proof (procedure_loop_bytes (byte_at tx 1) o (rxq u1) Hwf1) as Hp.
  destruct (procedure_loop (byte_at tx 1) o (rxq u1)) as [[[r o']|] q]; [exact Hp|].
  unfold after_ack.
  assert (Hwf2 : wf_rxq (rxq (snd (if 5 <? tx_len
                                   then _send_and_clear_echo (advance tx 5) (tx_len - 5)
                                          (with_rxq u1 q)
                                   else (0, with_rxq u1 q))))).
  { destruct (5 <? tx_len); [apply send_echo_wf|]; exact Hp. }
  destruct (if 5 <? tx_len then _ else _) as [e2 u2]. cbn [snd] in Hwf2.
  destruct (negb (e2 =? 0)); [discriminate|].
  pose proof (receive_loop_bytes (to_recv_of tx tx_len) (rxq u2) (rx o) 0 Hwf2
                ltac:(lia) ltac:(intros; lia)) as Hr.
  destruct (receive_loop (to_recv_of tx tx_len) (rx o) 0 (rxq u2)) as [[m n] q'].
  destruct (_ && _); [discriminate|]. intros _. exact (proj2 Hr).
Qed.

(** *** Logical channels *)

(** C6.  [logic_channel_open] returns -1 unless the MANAGE CHANNEL OPEN
    exchange succeeds with a response of exactly 3 bytes whose second byte
    has high nibble 9.  With such a response the channel is the first
    response byte, a byte and so never -1, and open returns it exactly when
    the SELECT exchange succeeds with at least 2 bytes of which the one at
    index length - 2 is 0x90 or 0x61; otherwise open returns -1. *)
Theorem logic_channel_open_result
    (junk : list Z) (junk_len : Z) (aid : list Z) (aid_len : Z) (u : line) :
  wf_rxq (rxq u) ->
  let '(r1, o1, u1) := _transmit_raw (local_resp junk junk_len) APDU_OPENLOGICCHANNEL 5 u in
  let opened :=
    (r1 =? 0) && (rx_len o1 =? 3) && (Z.land (load (rx o1) 1) 0xF0 =? 0x90) in
  let channel := load (rx o1) 0 in
  let '(r2, o2, _) :=
    _transmit_raw o1 (select_command channel aid aid_len) ((6 + aid_len - 1) mod 256) u1 in
  let sw1 := load (rx o2) (rx_len o2 - 2) in
  let selected :=
    (r2 =? 0) && (2 <=? rx_len o2) && ((sw1 =? 0x90) || (sw1 =? 0x61)) in
  let ret := fst (apdu_interface_logic_channel_open junk junk_len aid aid_len u) in
  (opened = false -> ret = -1)
  /\ (opened = true ->
      is_byte channel /\ (ret = channel <-> selected = true) /\ (selected = false -> ret = -1)).
Proof.
  intros Hwf. unfold apdu_interface_logic_channel_open.
  pose proof (transmit_raw_response_bytes (local_resp junk junk_len)
                APDU_OPENLOGICCHANNEL 5 u Hwf) as Hbytes.
  destruct (_transmit_raw (local_resp junk junk_len) APDU_OPENLOGICCHANNEL 5 u)
    as [[r1 o1] u1].
  destruct (_transmit_raw o1 (select_command (load (rx o1) 0) aid aid_len)
              ((6 + aid_len - 1) mod 256) u1) as [[r2 o2] u2].
  cbv zeta.
  destruct (Z.eqb_spec r1 0) as [Hr1|Hr1]; cbn [negb andb fst];
    [|split; [reflexivity | discriminate]].
  destruct (Z.eqb_spec (rx_len o1) 3) as [Hlen|Hlen]; cbn [negb andb fst];
    [|split; [reflexivity | discriminate]].
  destruct (Z.land (load (rx o1) 1) 0xF0 =? 0x90); cbn [negb andb fst];
    [|split; [reflexivity | discriminate]].
  split; [discriminate|]. intros _.
  assert (Hch : is_byte (load (rx o1) 0)) by (apply (Hbytes Hr1); lia).
  split; [exact Hch|].
  destruct (Z.eqb_spec r2 0) as [Hr2|Hr2]; cbn [negb andb fst].
  - destruct (Z.ltb_spec (rx_len o2) 2) as [Hlt|Hge]; cbn [fst].
    + destruct (Z.leb_spec 2 (rx_len o2)); [lia|]. cbn [andb].
      unfold is_byte in Hch. repeat split; try discriminate; intros; lia.
    + destruct (Z.leb_spec 2 (rx_len o2)); [|lia]. cbn [andb].
      destruct ((load (rx o2) (rx_len o2 - 2) =? 0x90)
                || (load (rx o2) (rx_len o2 - 2) =? 0x61)); cbn [fst].
      * repeat split; auto; discriminate.
      * unfold is_byte in Hch. repeat split; try discriminate; intros; lia.
  - unfold is_byte in Hch. repeat split; try discriminate; intros; lia.
Qed.

(** The card answers MANAGE CHANNEL OPEN with 01 90 00 and SELECT with
    90 00: open returns channel 1, and the SELECT it sent starts with 01. *)
Lemma logic_channel_open_result_witness :
  let u := mkLine (map Some ([0x00; 0x70; 0x00; 0x00; 0x01] ++ [0x70; 0x01; 0x90; 0x00]
                             ++ [0x01; 0xA4; 0x04; 0x00; 0x02] ++ [0xA4; 0xAA; 0xBB; 0x90; 0x00]))
                  [] true in
  fst (apdu_interface_logic_channel_open [] 0 [0xAA; 0xBB] 2 u) = 1.
Proof.
  cbv zeta.
  pose proof (logic_channel_open_result [] 0 [0xAA; 0xBB] 2
    (mkLine (map Some ([0x00; 0x70; 0x00; 0x00; 0x01] ++ [0x70; 0x01; 0x90; 0x00]
                       ++ [0x01; 0xA4; 0x04; 0x00; 0x02] ++ [0xA4; 0xAA; 0xBB; 0x90; 0x00]))
            [] true)) as H.
  assert (Hwf : wf_rxq (rxq (mkLine (map Some ([0x00; 0x70; 0x00; 0x00; 0x01]
                       ++ [0x70; 0x01; 0x90; 0x00]
                       ++ [0x01; 0xA4; 0x04; 0x00; 0x02] ++ [0xA4; 0xAA; 0xBB; 0x90; 0x00]))
            [] true))).
  { cbn. repeat constructor; unfold is_byte; lia. }
  specialize (H Hwf). vm_compute in H.
  destruct H as [_ H]. destruct (H eq_refl) as (_ & Hiff & _).
  exact (proj2 Hiff eq_refl).
Defined.

(** ** driver/http/espidf.c: the response handed back by [transmit] *)

Lemma length_fit (n : Z) (l : list Z) : length (fit n l) = Z.to_nat n.
Proof.
  unfold fit. rewrite length_firstn, length_app, repeat_length. lia.
Qed.

Lemma fit_prefix (n : Z) (l rest : list Z) :
  (length l <= Z.to_nat n)%nat -> firstn (length l) (fit n (l ++ rest)) = l.
Proof.
  intros H. unfold fit. rewrite firstn_firstn, Nat.min_l by exact H.
  rewrite <- !app_assoc, firstn_app, Nat.sub_diag, firstn_all. cbn [firstn].
  apply app_nil_r.
Qed.

Lemma skipn_last_cell (k : nat) (b : list Z) :
  length b = S k -> exists j, skipn k b = [j].
Proof.
  intros H. pose proof (length_skipn k b) as Hs. rewrite H in Hs.
  destruct (skipn k b) as [|j [|j' t]]; cbn [length] in Hs; try lia.
  now exists j.
Qed.

Lemma u32_small (x : Z) : 0 <= x < 2 ^ 32 -> Http.u32 x = x.
Proof. intros H. unfold Http.u32. now apply Z.mod_small. Qed.

Lemma data_event_tracking (body data : list Z) (heap : option (list Z)) (g : Http.globals) :
  data <> [] ->
  Z.of_nat (length (body ++ data)) < 2 ^ 32 - 1 ->
  Http.tracking body g ->
  Http.tracking (body ++ data)
    (snd (Http._http_event_handler (Http.HTTP_EVENT_ON_DATA data) heap g)).
Proof.
  intros Hdata Hbound (Hrecv & Hout & Hbuf).
  rewrite length_app, Nat2Z.inj_add in Hbound.
  assert (Hd : 0 < Z.of_nat (length data)) by (destruct data; [congruence | cbn [length]; lia]).
  unfold Http.tracking, Http._http_event_handler.
  destruct (Http.output_buffer g) as [old|] eqn:Hob.
  - unfold Http.realloc. destruct heap as [junk|]; cbn [option_map snd Http.receive_len
      Http.output_len Http.output_buffer]; rewrite !u32_small, length_app, Nat2Z.inj_add by lia.
    + split; [lia|]. split; [lia|]. intros Heq. right.
      split; [destruct body; [destruct data; [congruence | discriminate] | discriminate]|].
      destruct (Hbuf ltac:(lia)) as [[_ Hnone]|(Hne & j & Hsome)]; [discriminate|].
      injection Hsome as ->.
      assert (Hol : Http.output_len g = Z.of_nat (length body)) by lia.
      rewrite Hol. unfold Http.memcpy_at. rewrite Nat2Z.id.
      set (b := fit (Z.of_nat (length body) + Z.of_nat (length data) + 1)
                    ((body ++ [j]) ++ junk)).
      assert (Hpre : firstn (length body) b = body).
      { subst b. rewrite <- app_assoc. apply fit_prefix. lia. }
      destruct (skipn_last_cell (length body + length data) b) as [j' Hj'].
      { subst b. rewrite length_fit. lia. }
      rewrite Hpre, Hj'. exists j'. now rewrite <- app_assoc.
    + split; [lia|]. split; [lia|]. intros Heq. lia.
  - unfold Http.malloc. destruct heap as [junk|]; cbn [option_map snd Http.receive_len
      Http.output_len Http.output_buffer]; rewrite ?u32_small, length_app, Nat2Z.inj_add by lia.
    + split; [lia|]. split; [lia|]. intros Heq. right.
      assert (Hb : body = []) by (destruct body; [reflexivity | cbn [length] in *; lia]).
      subst body. cbn [app]. split; [exact Hdata|].
      unfold Http.memcpy_at. cbn [Z.to_nat firstn app Nat.add].
      destruct (skipn_last_cell (length data) (fit (Z.of_nat (length data) + 1) junk))
        as [j' Hj']; [rewrite length_fit; lia|].
      rewrite Hj'. now exists j'.
    + split; [lia|]. split; [lia|]. intros Heq. lia.
Qed.

Lemma dispatch_tracking (evts : list (Http.event * option (list Z))) :
  forall body g,
    Http.chunks_nonempty evts ->
    Z.of_nat (length (body ++ Http.body_of evts)) < 2 ^ 32 - 1 ->
    Http.tracking body g ->
    Http.tracking (body ++ Http.body_of evts) (Http.dispatch evts g).
Proof.
  induction evts as [|[evt heap] evts IH]; intros body g Hne Hbound Htr.
  - cbn [Http.body_of flat_map Http.dispatch]. now rewrite app_nil_r.
  - inversion Hne as [|? ? Hevt Hne']; subst. cbn [fst] in Hevt.
    cbn [Http.body_of flat_map Http.dispatch fst] in *. fold (Http.body_of evts) in *.
    destruct evt; try (cbn [app Http._http_event_handler snd] in *; now apply IH).
    rewrite app_assoc in *. apply IH; [exact Hne' | exact Hbound |].
    apply data_event_tracking; [exact Hevt | | exact Htr].
    rewrite !length_app in *. lia.
Qed.

(** C10.  When [transmit] returns 0 after a non-empty body came in, the
    buffer it hands back is that body followed by a 0 byte and the length it
    reports is the body's length plus one; when it returns -1, and when no
    body came in, it hands back NULL and length 0. *)
Theorem http_transmit_response
    (evts : list (Http.event * option (list Z))) (err status : Z) (g0 : Http.globals) :
  Http.chunks_nonempty evts ->
  Z.of_nat (length (Http.body_of evts)) < 2 ^ 32 - 1 ->
  let r := fst (Http.transmit evts err status g0) in
  let body := Http.body_of evts in
  (Http.ret r = 0 \/ Http.ret r = -1)
  /\ (Http.ret r = 0 -> body <> [] ->
      Http.rx r = Some (body ++ [0]) /\ Http.rx_len r = Z.of_nat (length body) + 1)
  /\ (Http.ret r = -1 \/ body = [] -> Http.rx r = None /\ Http.rx_len r = 0).
Proof.
  intros Hne Hbound r body.
  pose proof (dispatch_tracking evts [] (Http.mkGlobals None 0 0) Hne Hbound) as Htr.
  cbn [app] in Htr. fold body in Htr, Hbound.
  destruct Htr as (Hrecv & Hout & Hbuf).
  { unfold Http.tracking. cbn. repeat split; try lia. intros _. now left. }
  subst r. unfold Http.transmit.
  set (g := Http.dispatch evts (Http.mkGlobals None 0 0)) in *.
  destruct (Z.eqb_spec (Http.output_len g) (Http.receive_len g)) as [Heq|Hneq];
    cbn [negb].
  2: { cbn. split; [now right|]. split; [discriminate | auto]. }
  destruct (err =? Http.ESP_OK).
  2: { cbn. split; [now right|]. split; [discriminate | auto]. }
  destruct (Hbuf Heq) as [[Hnil Hnone]|(Hbody & j & Hsome)].
  - rewrite Hnone, andb_false_r. cbn. split; [now left|]. split; [congruence | auto].
  - rewrite Hsome.
    assert (Hlen : Http.output_len g = Z.of_nat (length body)) by lia.
    assert (Hpos : 0 < Z.of_nat (length body))
      by (destruct body; [congruence | cbn [length]; lia]).
    destruct (Z.ltb_spec 0 (Http.output_len g)); [|lia]. cbn [andb fst Http.ret Http.rx
      Http.rx_len].
    split; [now left|]. split.
    + intros _ _. rewrite Hlen, u32_small by lia. split; [|reflexivity].
      unfold Http.memcpy_at. rewrite Nat2Z.id, firstn_app, Nat.sub_diag, firstn_all.
      cbn [firstn length]. rewrite skipn_all2 by (rewrite length_app; cbn [length]; lia).
      now rewrite !app_nil_r.
    + intros [H0|Hb]; [discriminate | contradiction].
Qed.

Lemma http_transmit_response_witness :
  let evts := [(Http.HTTP_EVENT_ON_CONNECTED, None);
               (Http.HTTP_EVENT_ON_DATA [0x7B; 0x7D], Some [0xEE; 0xEE; 0xEE]);
               (Http.HTTP_EVENT_ON_DATA [0x0A], Some []);
               (Http.HTTP_EVENT_ON_FINISH, None)] in
  let r := fst (Http.transmit evts Http.ESP_OK 200 (Http.mkGlobals None 0 0)) in
  Http.rx r = Some ([0x7B; 0x7D; 0x0A] ++ [0]) /\ Http.rx_len r = 3 + 1.
Proof.
  cbv zeta.
  refine (proj1 (proj2 (http_transmit_response
            [(Http.HTTP_EVENT_ON_CONNECTED, None);
             (Http.HTTP_EVENT_ON_DATA [0x7B; 0x7D], Some [0xEE; 0xEE; 0xEE]);
             (Http.HTTP_EVENT_ON_DATA [0x0A], Some []);
             (Http.HTTP_EVENT_ON_FINISH, None)]
            Http.ESP_OK 200 (Http.mkGlobals None 0 0) _ _)) _ _).
  - repeat constructor; discriminate.
  - vm_compute. reflexivity.
  - reflexivity.
  - discriminate.
Defined.

(** ** Further properties of driver/apdu/espidf.c *)

(** *** The echo check *)

Lemma read_upto_full (n : nat) : forall q bs r,
  read_upto n q = (bs, r) -> length bs = n -> q = map Some bs ++ r.
Proof.
  induction n as [|n IH]; intros q bs r H Hlen; cbn [read_upto] in H.
  - injection H as <- <-. reflexivity.
  - destruct q as [|[b|] q].
    + injection H as <- <-. discriminate.
    + destruct (read_upto n q) as [bs' r'] eqn:Hr. injection H as <- <-.
      cbn [length] in Hlen. cbn [map app]. f_equal. apply (IH q bs' r' Hr). lia.
    + injection H as <- <-. discriminate.
Qed.

(** X1.  As long as none of the [n] bytes sent is 0x00, [_send_and_clear_echo]
    returns 0 exactly when the driver took the bytes and the next [n] entries
    of the line are those bytes, none missing and none different. *)
Theorem echo_accepted_iff_faithful (tx : list Z) (n : Z) (u : line) :
  0 <= n <= EUICC_INTERFACE_BUFSZ -> (Z.to_nat n <= length tx)%nat ->
  Forall (fun c => c <> 0) (take tx n) ->
  fst (_send_and_clear_echo tx n u) = 0
  <-> tx_up u = true /\ exists q, rxq u = map Some (take tx n) ++ q.
Proof.
  intros Hn Hle Hnz. split.
  - intros H0.
    pose proof (send_echo_exact_without_nul tx n u Hn Hle Hnz H0) as Hecho.
    unfold _send_and_clear_echo, uart_write_bytes, uart_read_bytes in *.
    destruct (tx_up u) eqn:Hup.
    + split; [reflexivity|]. cbn [snd rxq] in *.
      rewrite Z.eqb_refl in H0. cbn [negb] in H0.
      destruct (read_upto (Z.to_nat n) (rxq u)) as [got q] eqn:Hr.
      cbn [fst] in Hecho. subst got. exists q.
      apply (read_upto_full _ _ _ _ Hr). unfold take. rewrite length_firstn. lia.
    + exfalso. destruct (Z.eqb_spec (-1) n); [lia|]. cbn in H0. lia.
  - intros [Hup [q Hq]]. now rewrite (send_echo_ok tx n u q) by (auto; lia).
Qed.

Lemma echo_accepted_iff_faithful_witness :
  fst (_send_and_clear_echo [0x80; 0xAA; 0x01; 0x02; 0x0A] 5
         (mkLine (map Some (take [0x80; 0xAA; 0x01; 0x02; 0x0A] 5) ++ [Some 0xAA]) [] true)) = 0.
Proof.
  refine (proj2 (echo_accepted_iff_faithful [0x80; 0xAA; 0x01; 0x02; 0x0A] 5
                   (mkLine (map Some (take [0x80; 0xAA; 0x01; 0x02; 0x0A] 5) ++ [Some 0xAA])
                           [] true) _ _ _) _).
  - unfold EUICC_INTERFACE_BUFSZ; lia.
  - simpl; lia.
  - repeat constructor; discriminate.
  - split; [reflexivity|]. now exists [Some 0xAA].
Defined.

(** X2.  A 0x00 among the bytes sent ends the comparison: when the echo is
    faithful up to and including that byte, every echo of the right length
    is accepted, whatever comes back for the bytes behind it. *)
Theorem echo_unchecked_behind_nul
    (pre post echo : list Z) (u : line) (q : list (option Z)) :
  length echo = length post ->
  tx_up u = true ->
  rxq u = map Some (pre ++ 0 :: echo) ++ q ->
  _send_and_clear_echo (pre ++ 0 :: post) (Z.of_nat (length (pre ++ 0 :: post))) u
  = (0, mkLine q (txlog u ++ pre ++ 0 :: post) true).
Proof.
  intros Hlen Hup Hq.
  unfold _send_and_clear_echo, uart_write_bytes, uart_read_bytes.
  rewrite Hup, Z.eqb_refl. cbn [negb rxq]. rewrite Hq, Nat2Z.id.
  replace (length (pre ++ 0 :: post)) with (length (pre ++ 0 :: echo))
    by (rewrite !length_app; simpl; lia).
  rewrite read_upto_all, Z.eqb_refl. cbn [negb].
  unfold echo_buf. rewrite <- app_assoc. cbn [app].
  rewrite strncmp_stops_at_nul. cbn [Z.eqb negb with_rxq txlog tx_up].
  unfold take. rewrite Nat2Z.id.
  replace (length (pre ++ 0 :: echo)) with (length (pre ++ 0 :: post))
    by (rewrite !length_app; simpl; lia).
  now rewrite firstn_all.
Qed.

Lemma echo_unchecked_behind_nul_witness :
  _send_and_clear_echo ([0x80; 0xE2] ++ 0 :: [0x91; 0x03])
    (Z.of_nat (length ([0x80; 0xE2] ++ 0 :: [0x91; 0x03])))
    (mkLine (map Some ([0x80; 0xE2] ++ 0 :: [0x12; 0x34]) ++ []) [] true)
  = (0, mkLine [] ([] ++ [0x80; 0xE2] ++ 0 :: [0x91; 0x03]) true).
Proof.
  apply (echo_unchecked_behind_nul [0x80; 0xE2] [0x91; 0x03] [0x12; 0x34]
           (mkLine (map Some ([0x80; 0xE2] ++ 0 :: [0x12; 0x34]) ++ []) [] true) []);
    reflexivity.
Defined.

(** *** What an exchange returns and what it writes *)

Lemma send_echo_effect (tx : list Z) (n : Z) (u : line) :
  (fst (_send_and_clear_echo tx n u) = 0 \/ fst (_send_and_clear_echo tx n u) = -1)
  /\ tx_up (snd (_send_and_clear_echo tx n u)) = tx_up u
  /\ txlog (snd (_send_and_clear_echo tx n u))
     = txlog u ++ (if tx_up u then take tx n else [])
  /\ (fst (_send_and_clear_echo tx n u) = 0 -> tx_up u = true).
Proof.
  unfold _send_and_clear_echo, uart_write_bytes, uart_read_bytes.
  destruct (tx_up u) eqn:Hup.
  - rewrite Z.eqb_refl. cbn [negb rxq].
    destruct (read_upto (Z.to_nat n) (rxq u)) as [got q].
    case_ifs; cbn; auto.
  - destruct (Z.eqb_spec (-1) n) as [<-|_]; cbn [negb fst snd Z.to_nat read_upto];
      rewrite ?app_nil_r, ?Hup.
    + cbn; rewrite ?app_nil_r, ?Hup. repeat split; auto. intros; lia.
    + repeat split; auto. intros; lia.
Qed.

Lemma procedure_loop_ret (ins : Z) (o : resp) (q : list (option Z)) :
  match fst (procedure_loop ins o q) with
  | Some (r, _) => r = 0 \/ r = -1
  | None => True
  end.
Proof.
  induction q as [|[ack|] q IH]; cbn [procedure_loop fst]; auto.
  destruct (ack =? ins); cbn [fst]; auto.
  destruct (negb (ack =? 0x60)); [|exact IH].
  destruct q as [|[sw2|] [|[x|] q]]; cbn [fst]; auto.
Qed.

(** X3.  An exchange returns 0 or -1.  It leaves the driver as it was and
    adds to the line nothing but bytes of the command: none, its 5-byte
    header, or the header and then the rest of the command; and it returns 0
    only if the driver takes writes. *)
Theorem transmit_raw_returns_and_writes (o : resp) (tx : list Z) (tx_len : Z) (u : line) :
  let '(r, _, u') := _transmit_raw o tx tx_len u in
  (r = 0 \/ r = -1)
  /\ tx_up u' = tx_up u
  /\ (exists w, txlog u' = txlog u ++ w
                /\ (w = [] \/ w = take tx 5
                    \/ w = take tx 5 ++ take (advance tx 5) (tx_len - 5)))
  /\ (r = 0 -> tx_up u = true).
Proof.
  assert (Hfin : forall (r : Z) (u' : line) (w : list Z),
            (r = 0 \/ r = -1) -> tx_up u' = tx_up u -> txlog u' = txlog u ++ w ->
            (w = [] \/ w = take tx 5
             \/ w = take tx 5 ++ take (advance tx 5) (tx_len - 5)) ->
            (r = 0 -> tx_up u = true) ->
            (r = 0 \/ r = -1) /\ tx_up u' = tx_up u
            /\ (exists w, txlog u' = txlog u ++ w
                          /\ (w = [] \/ w = take tx 5
                              \/ w = take tx 5 ++ take (advance tx 5) (tx_len - 5)))
            /\ (r = 0 -> tx_up u = true)) by (intros; eauto 10).
  unfold _transmit_raw. destruct (tx_len <? 5).
  { apply (Hfin _ _ []); auto; [now rewrite app_nil_r | intros; lia]. }
  unfold after_check.
  destruct (send_echo_effect tx 5 u) as (Hr1 & Hup1 & Hlog1 & Hok1).
  destruct (_send_and_clear_echo tx 5 u) as [e u1]. cbn [fst snd] in *.
  destruct (Z.eqb_spec e 0) as [He|He]; cbn [negb].
  2: { destruct (tx_up u); [apply (Hfin _ _ (take tx 5)) | apply (Hfin _ _ [])];
         auto; try (intros; lia). }
  specialize (Hok1 He). rewrite Hok1 in *.
  pose proof (procedure_loop_ret (byte_at tx 1) o (rxq u1)) as Hp.
  destruct (procedure_loop (byte_at tx 1) o (rxq u1)) as [[[r o']|] q]; cbn [fst] in Hp.
  { apply (Hfin _ _ (take tx 5)); auto. }
  unfold after_ack. cbn [with_rxq].
  destruct (5 <? tx_len).
  - destruct (send_echo_effect (advance tx 5) (tx_len - 5) (mkLine q (txlog u1) (tx_up u1)))
      as (Hr2 & Hup2 & Hlog2 & _).
    destruct (_send_and_clear_echo (advance tx 5) (tx_len - 5) _) as [e2 u2].
    cbn [fst snd tx_up txlog] in *. rewrite Hup1 in Hlog2, Hup2.
    assert (Hw2 : txlog u2 = txlog u ++ take tx 5 ++ take (advance tx 5) (tx_len - 5))
      by (rewrite Hlog2, Hlog1; now rewrite <- app_assoc).
    destruct (negb (e2 =? 0)).
    + apply (Hfin _ _ _ (or_intror eq_refl) Hup2 Hw2); auto; try (intros; lia).
    + destruct (receive_loop _ _ _ _) as [[m n] q'].
      destruct (_ && _);
        [apply (Hfin _ _ _ (or_intror eq_refl) Hup2 Hw2)
        |apply (Hfin _ _ _ (or_introl eq_refl) Hup2 Hw2)]; auto; try (intros; lia).
  - cbn [negb Z.eqb]. destruct (receive_loop _ _ _ _) as [[m n] q'].
    destruct (_ && _);
      [apply (Hfin _ _ (take tx 5) (or_intror eq_refl))
      |apply (Hfin _ _ (take tx 5) (or_introl eq_refl))]; auto; try (intros; lia).
Qed.

Lemma transmit_raw_returns_and_writes_witness :
  let '(r, _, u') :=
    _transmit_raw (local_resp [] 0) [0x00; 0xA4; 0x04; 0x00; 0x02; 0xAA; 0xBB] 7
      (mkLine (map Some [0x00; 0xA4; 0x04; 0x00; 0x02; 0xA4; 0xAA; 0xBB; 0x90; 0x00]) [0x55] true) in
  (r = 0 \/ r = -1)
  /\ tx_up u' = true
  /\ (exists w, txlog u' = [0x55] ++ w
                /\ (w = [] \/ w = take [0x00; 0xA4; 0x04; 0x00; 0x02; 0xAA; 0xBB] 5
                    \/ w = take [0x00; 0xA4; 0x04; 0x00; 0x02; 0xAA; 0xBB] 5
                           ++ take (advance [0x00; 0xA4; 0x04; 0x00; 0x02; 0xAA; 0xBB] 5) (7 - 5)))
  /\ (r = 0 -> true = true).
Proof.
  exact (transmit_raw_returns_and_writes (local_resp [] 0)
           [0x00; 0xA4; 0x04; 0x00; 0x02; 0xAA; 0xBB] 7
           (mkLine (map Some [0x00; 0xA4; 0x04; 0x00; 0x02; 0xA4; 0xAA; 0xBB; 0x90; 0x00])
                   [0x55] true)).
Defined.

(** *** Procedure bytes, once more *)

Lemma procedure_loop_nulls (ins : Z) (o : resp) (k : nat) (q : list (option Z)) :
  ins <> 0x60 ->
  procedure_loop ins o (repeat (Some 0x60) k ++ q) = procedure_loop ins o q.
Proof.
  intros Hins. induction k as [|k IH]; [reflexivity|].
  cbn [repeat app procedure_loop].
  destruct (Z.eqb_spec 0x60 ins) as [Heq|_]; [congruence|]. exact IH.
Qed.

Lemma transmit_raw_header (o : resp) (tx : list Z) (tx_len : Z) (u : line)
    (q : list (option Z)) :
  5 <= tx_len -> (5 <= length tx)%nat -> tx_up u = true ->
  rxq u = map Some (take tx 5) ++ q ->
  _transmit_raw o tx tx_len u
  = match procedure_loop (byte_at tx 1) o q with
    | (Some (r, o'), q') => (r, o', mkLine q' (txlog u ++ take tx 5) true)
    | (None, q') => after_ack o tx tx_len (mkLine q' (txlog u ++ take tx 5) true)
    end.
Proof.
  intros Hlen Hbuf Hup Hq. unfold _transmit_raw.
  destruct (Z.ltb_spec tx_len 5) as [|_]; [lia|].
  unfold after_check. rewrite (send_echo_ok tx 5 u q) by (auto; lia).
  cbn [negb Z.eqb rxq with_rxq txlog tx_up]. reflexivity.
Qed.

(** X4.  The card may stall with any number of 0x60 bytes before it
    acknowledges: for a command whose INS is not 0x60 the exchange goes on
    with the body as if they had not been sent; and when the card falls
    silent after them, the exchange returns -1 with the out-parameters
    untouched and only the header written. *)
Theorem stalling_before_acknowledge
    (o : resp) (tx : list Z) (tx_len : Z) (u : line) (k : nat) (q : list (option Z)) :
  5 <= tx_len -> (5 <= length tx)%nat -> tx_up u = true ->
  byte_at tx 1 <> 0x60 ->
  (rxq u = map Some (take tx 5) ++ repeat (Some 0x60) k ++ Some (byte_at tx 1) :: q ->
   _transmit_raw o tx tx_len u
   = after_ack o tx tx_len (mkLine q (txlog u ++ take tx 5) true))
  /\ (rxq u = map Some (take tx 5) ++ repeat (Some 0x60) k ++ q ->
      buffered q = O ->
      _transmit_raw o tx tx_len u = (-1, o, mkLine (tl q) (txlog u ++ take tx 5) true)).
Proof.
  intros Hlen Hbuf Hup Hins. split.
  - intros Hq. rewrite (transmit_raw_header o tx tx_len u _ Hlen Hbuf Hup Hq).
    rewrite procedure_loop_nulls by exact Hins.
    cbn [procedure_loop]. now rewrite Z.eqb_refl.
  - intros Hq Hsilent. rewrite (transmit_raw_header o tx tx_len u _ Hlen Hbuf Hup Hq).
    rewrite procedure_loop_nulls by exact Hins.
    destruct q as [|[b|] q]; [reflexivity | discriminate | reflexivity].
Qed.

Lemma stalling_before_acknowledge_witness :
  _transmit_raw (local_resp [] 0) [0x00; 0xCA; 0x00; 0x00; 0x00] 5
    (mkLine (map Some (take [0x00; 0xCA; 0x00; 0x00; 0x00] 5)
             ++ repeat (Some 0x60) 3 ++ [None; Some 0xCA]) [] true)
  = (-1, local_resp [] 0, mkLine (tl [None; Some 0xCA]) ([] ++ take [0x00; 0xCA; 0x00; 0x00; 0x00] 5) true).
Proof.
  refine (proj2 (stalling_before_acknowledge (local_resp [] 0) [0x00; 0xCA; 0x00; 0x00; 0x00] 5
                   (mkLine (map Some (take [0x00; 0xCA; 0x00; 0x00; 0x00] 5)
                            ++ repeat (Some 0x60) 3 ++ [None; Some 0xCA]) [] true)
                   3 [None; Some 0xCA] _ _ _ _) _ _).
  - lia.
  - simpl; lia.
  - reflexivity.
  - discriminate.
  - reflexivity.
  - reflexivity.
Defined.

(** *** The receive loop, byte by byte *)

Lemma receive_loop_done (to_recv : Z) (m : rxmem) (len : Z) (q : list (option Z)) :
  to_recv <= len -> receive_loop to_recv m len q = (m, len, q).
Proof.
  intros H. destruct q as [|[b|] q]; cbn [receive_loop];
    destruct (Z.ltb_spec len to_recv); try lia; reflexivity.
Qed.

Lemma receive_loop_silent (to_recv : Z) (m : rxmem) (len : Z) (q : list (option Z)) :
  buffered q = O -> receive_loop to_recv m len q = (m, len, if len <? to_recv then tl q else q).
Proof.
  intros H. destruct q as [|[b|] q]; cbn [receive_loop tl]; try discriminate;
    destruct (len <? to_recv); reflexivity.
Qed.

Lemma counted_cons (to_recv b : Z) (wire : list Z) :
  counted to_recv (b :: wire)
  = if (to_recv =? 2) && (b =? 0x60) then counted to_recv wire
    else b :: counted to_recv wire.
Proof.
  unfold counted. cbn [filter]. destruct ((to_recv =? 2) && (b =? 0x60)); reflexivity.
Qed.

(** The loop takes a run of bytes that does not yet complete the response:
    it has counted what [counted] keeps and stored it in order. *)
Lemma receive_loop_counts (to_recv : Z) (bs : list Z) : forall m len rest,
  0 <= len ->
  len + Z.of_nat (length (counted to_recv bs)) < to_recv ->
  exists m',
    receive_loop to_recv m len (map Some bs ++ rest)
    = receive_loop to_recv m' (len + Z.of_nat (length (counted to_recv bs))) rest
    /\ (forall i, 0 <= i < len -> load m' i = load m i)
    /\ (forall k, (k < length (counted to_recv bs))%nat ->
                  load m' (len + Z.of_nat k) = nth k (counted to_recv bs) 0).
Proof.
  induction bs as [|b bs IH]; intros m len rest Hlen Hlt.
  - exists m. cbn [counted filter length map app Z.of_nat]. rewrite Z.add_0_r.
    repeat split; auto. intros k Hk. cbn in Hk. lia.
  - rewrite counted_cons in *. cbn [map app receive_loop].
    assert (Hnow : len < to_recv) by (destruct (_ && _); cbn [length] in Hlt; lia).
    destruct (Z.ltb_spec len to_recv) as [_|]; [|lia].
    rewrite load_store_same by exact Hlen.
    destruct ((to_recv =? 2) && (b =? 0x60)).
    + destruct (IH (store m len b) len rest Hlen Hlt) as (m' & Heq & Hlow & Hnew).
      exists m'. split; [exact Heq|]. split; [|exact Hnew].
      intros i Hi. rewrite Hlow by exact Hi. apply load_store_other; lia.
    + cbn [length] in Hlt |- *.
      destruct (IH (store m len b) (len + 1) rest ltac:(lia) ltac:(lia))
        as (m' & Heq & Hlow & Hnew).
      exists m'. split; [rewrite Heq; f_equal; lia|]. split.
      * intros i Hi. rewrite Hlow by lia. apply load_store_other; lia.
      * intros [|k] Hk; cbn [nth].
        -- rewrite Z.add_0_r, Hlow by lia. now apply load_store_same.
        -- replace (len + Z.of_nat (S k)) with (len + 1 + Z.of_nat k) by lia.
           apply Hnew. lia.
Qed.

Lemma response_of_loads (m : rxmem) (l : list Z) :
  (forall k, (k < length l)%nat -> load m (Z.of_nat k) = nth k l 0) ->
  response (mkResp m (Z.of_nat (length l))) = l.
Proof.
  intros H. unfold response. cbn [rx rx_len]. rewrite Nat2Z.id.
  apply (nth_ext _ _ (load m (Z.of_nat 0)) 0).
  - now rewrite length_map, length_seq.
  - intros k Hk. rewrite length_map, length_seq in Hk.
    rewrite (map_nth (fun i => load m (Z.of_nat i)) (seq 0 (length l)) 0%nat k).
    rewrite seq_nth by exact Hk. now apply H.
Qed.

Lemma firstn_plus (a b : nat) : forall l : list Z,
  firstn (a + b) l = firstn a l ++ firstn b (skipn a l).
Proof.
  induction a as [|a IH]; intros l; [reflexivity|].
  destruct l as [|x l]; cbn [Nat.add firstn skipn app].
  - now rewrite firstn_nil.
  - now rewrite IH.
Qed.

Lemma take_header_body (tx : list Z) (tx_len : Z) :
  5 <= tx_len -> take tx 5 ++ take (advance tx 5) (tx_len - 5) = take tx tx_len.
Proof.
  intros H. unfold take, advance.
  replace (Z.to_nat tx_len) with (Z.to_nat 5 + Z.to_nat (tx_len - 5))%nat by lia.
  symmetry. apply firstn_plus.
Qed.

(** After the acknowledgement: the rest of the command goes out, its echo is
    read, and the receive loop runs on what follows. *)
Lemma after_ack_body (o : resp) (tx : list Z) (tx_len : Z) (u : line) (q : list (option Z)) :
  5 <= tx_len -> (Z.to_nat tx_len <= length tx)%nat -> tx_up u = true ->
  rxq u = map Some (take (advance tx 5) (tx_len - 5)) ++ q ->
  after_ack o tx tx_len u
  = let to_recv := to_recv_of tx tx_len in
    let '(m, n, q') := receive_loop to_recv (rx o) 0 q in
    let u' := mkLine q' (txlog u ++ take (advance tx 5) (tx_len - 5)) true in
    if negb (n =? to_recv) && negb (to_recv =? 65535)
    then (-1, mkResp m n, u') else (0, mkResp m n, u').
Proof.
  intros Hlen Hbuf Hup Hq. unfold after_ack.
  destruct (Z.ltb_spec 5 tx_len) as [Hlt|Hge].
  - assert (Hb : (Z.to_nat (tx_len - 5) <= length (advance tx 5))%nat)
      by (unfold advance; rewrite length_skipn; lia).
    rewrite (send_echo_ok (advance tx 5) (tx_len - 5) u q) by (auto; lia).
    cbn [negb Z.eqb rxq with_rxq txlog tx_up]. reflexivity.
  - assert (tx_len = 5) by lia. subst tx_len.
    change (take (advance tx 5) (5 - 5)) with (@nil Z) in *.
    cbn [map app] in Hq. rewrite app_nil_r. cbn [negb Z.eqb]. rewrite Hq.
    destruct u as [rq tl tu]. cbn [rxq txlog tx_up with_rxq] in *. subst tu. reflexivity.
Qed.

Lemma counted_snoc (to_recv b : Z) (wire : list Z) :
  (to_recv = 2 -> b <> 0x60) ->
  counted to_recv (wire ++ [b]) = counted to_recv wire ++ [b].
Proof.
  intros Hb. unfold counted. rewrite filter_app. cbn [filter].
  destruct (Z.eqb_spec to_recv 2) as [H2|_]; [|reflexivity].
  destruct (Z.eqb_spec b 0x60); [now elim (Hb H2) | reflexivity].
Qed.

(** X5.  The whole exchange when the card plays its part: the header is
    echoed, the card acknowledges with INS, the rest of the command is
    echoed, and the card sends an answer whose counted bytes are as many as
    the exchange waits for, the last byte being one of them.  Then the
    exchange returns 0, the response is the counted bytes in order, the
    command has gone out once and whole, and what the card sends next is
    still on the line. *)
Theorem exchange_complete_response
    (o : resp) (tx : list Z) (tx_len : Z) (u : line)
    (wire : list Z) (b : Z) (rest : list (option Z)) :
  5 <= tx_len -> (Z.to_nat tx_len <= length tx)%nat -> tx_up u = true ->
  rxq u = map Some (take tx 5) ++ Some (byte_at tx 1)
          :: map Some (take (advance tx 5) (tx_len - 5)) ++ map Some (wire ++ [b]) ++ rest ->
  (to_recv_of tx tx_len = 2 -> b <> 0x60) ->
  Z.of_nat (length (counted (to_recv_of tx tx_len) (wire ++ [b]))) = to_recv_of tx tx_len ->
  exists o',
    _transmit_raw o tx tx_len u = (0, o', mkLine rest (txlog u ++ take tx tx_len) true)
    /\ rx_len o' = to_recv_of tx tx_len
    /\ response o' = counted (to_recv_of tx tx_len) (wire ++ [b]).
Proof.
  intros Hlen Hbuf Hup Hq Hb Hn.
  rewrite (transmit_raw_header o tx tx_len u _ Hlen ltac:(lia) Hup Hq).
  cbn [procedure_loop]. rewrite Z.eqb_refl.
  rewrite (after_ack_body o tx tx_len (mkLine _ (txlog u ++ take tx 5) true)
             (map Some (wire ++ [b]) ++ rest) Hlen Hbuf eq_refl eq_refl).
  cbn [txlog]. rewrite <- app_assoc, take_header_body by exact Hlen.
  set (to_recv := to_recv_of tx tx_len) in *.
  rewrite counted_snoc in * by exact Hb.
  rewrite length_app in Hn. cbn [length] in Hn.
  rewrite map_app, <- app_assoc. cbv zeta.
  destruct (receive_loop_counts to_recv wire (rx o) 0 (map Some [b] ++ rest))
    as (m' & Heq & _ & Hnew); [lia | lia |].
  rewrite Heq. cbn [map app receive_loop Z.add].
  set (c := Z.of_nat (length (counted to_recv wire))) in *.
  destruct (Z.ltb_spec c to_recv) as [_|]; [|lia].
  rewrite load_store_same by lia.
  assert (Hkeep : (to_recv =? 2) && (b =? 0x60) = false).
  { destruct (Z.eqb_spec to_recv 2) as [H2|]; [|reflexivity].
    destruct (Z.eqb_spec b 0x60); [now elim (Hb H2) | reflexivity]. }
  rewrite Hkeep, receive_loop_done by lia.
  replace (c + 1) with to_recv by lia. rewrite Z.eqb_refl. cbn [negb andb].
  eexists. split; [reflexivity|]. split; [reflexivity|].
  pose proof (response_of_loads (store m' c b) (counted to_recv wire ++ [b])) as Hresp.
  rewrite length_app in Hresp. cbn [length] in Hresp. rewrite Hn in Hresp.
  apply Hresp. intros k Hk.
  destruct (Nat.eq_dec k (length (counted to_recv wire))) as [->|Hne].
  - rewrite nth_middle. apply load_store_same. lia.
  - rewrite app_nth1 by lia. rewrite load_store_other by lia.
    rewrite <- (Hnew k) by lia. reflexivity.
Qed.

Lemma exchange_complete_response_witness :
  exists o',
    _transmit_raw (local_resp [] 0) [0x00; 0xD6; 0x00; 0x00; 0x02; 0xAA; 0xBB] 7
      (mkLine (map Some (take [0x00; 0xD6; 0x00; 0x00; 0x02; 0xAA; 0xBB] 5)
               ++ Some (byte_at [0x00; 0xD6; 0x00; 0x00; 0x02; 0xAA; 0xBB] 1)
               :: map Some (take (advance [0x00; 0xD6; 0x00; 0x00; 0x02; 0xAA; 0xBB] 5) (7 - 5))
               ++ map Some ([0x60; 0x90; 0x60] ++ [0x00]) ++ [Some 0x3B]) [] true)
    = (0, o', mkLine [Some 0x3B] ([] ++ take [0x00; 0xD6; 0x00; 0x00; 0x02; 0xAA; 0xBB] 7) true)
    /\ rx_len o' = to_recv_of [0x00; 0xD6; 0x00; 0x00; 0x02; 0xAA; 0xBB] 7
    /\ response o' = counted (to_recv_of [0x00; 0xD6; 0x00; 0x00; 0x02; 0xAA; 0xBB] 7)
                             ([0x60; 0x90; 0x60] ++ [0x00]).
Proof.
  apply (exchange_complete_response (local_resp [] 0)
           [0x00; 0xD6; 0x00; 0x00; 0x02; 0xAA; 0xBB] 7
           (mkLine (map Some (take [0x00; 0xD6; 0x00; 0x00; 0x02; 0xAA; 0xBB] 5)
                    ++ Some (byte_at [0x00; 0xD6; 0x00; 0x00; 0x02; 0xAA; 0xBB] 1)
                    :: map Some (take (advance [0x00; 0xD6; 0x00; 0x00; 0x02; 0xAA; 0xBB] 5)
                                      (7 - 5))
                    ++ map Some ([0x60; 0x90; 0x60] ++ [0x00]) ++ [Some 0x3B]) [] true)
           [0x60; 0x90; 0x60] 0x00 [Some 0x3B]).
  - lia.
  - simpl; lia.
  - reflexivity.
  - reflexivity.
  - discriminate.
  - reflexivity.
Defined.

(** X6.  When the card falls silent before the counted bytes are as many as
    the exchange waits for, the exchange returns 0 only if that number is the
    65535 of "read until silence", and -1 otherwise; either way [*rx_len] is
    the number of bytes counted so far and they are in the buffer. *)
Theorem exchange_short_response
    (o : resp) (tx : list Z) (tx_len : Z) (u : line)
    (wire : list Z) (t : list (option Z)) :
  5 <= tx_len -> (Z.to_nat tx_len <= length tx)%nat -> tx_up u = true ->
  rxq u = map Some (take tx 5) ++ Some (byte_at tx 1)
          :: map Some (take (advance tx 5) (tx_len - 5)) ++ map Some wire ++ t ->
  buffered t = O ->
  Z.of_nat (length (counted (to_recv_of tx tx_len) wire)) < to_recv_of tx tx_len ->
  exists o',
    _transmit_raw o tx tx_len u
    = ((if to_recv_of tx tx_len =? 65535 then 0 else -1), o',
       mkLine (tl t) (txlog u ++ take tx tx_len) true)
    /\ rx_len o' = Z.of_nat (length (counted (to_recv_of tx tx_len) wire))
    /\ response o' = counted (to_recv_of tx tx_len) wire.
Proof.
  intros Hlen Hbuf Hup Hq Hsilent Hn.
  rewrite (transmit_raw_header o tx tx_len u _ Hlen ltac:(lia) Hup Hq).
  cbn [procedure_loop]. rewrite Z.eqb_refl.
  rewrite (after_ack_body o tx tx_len (mkLine _ (txlog u ++ take tx 5) true)
             (map Some wire ++ t) Hlen Hbuf eq_refl eq_refl).
  cbn [txlog]. rewrite <- app_assoc, take_header_body by exact Hlen.
  set (to_recv := to_recv_of tx tx_len) in *. cbv zeta.
  destruct (receive_loop_counts to_recv wire (rx o) 0 t) as (m' & Heq & _ & Hnew);
    [lia | lia |].
  rewrite Heq, receive_loop_silent by exact Hsilent. cbn [Z.add].
  set (c := Z.of_nat (length (counted to_recv wire))) in *.
  destruct (Z.ltb_spec c to_recv) as [_|]; [|lia].
  destruct (Z.eqb_spec c to_recv) as [|_]; [lia|]. cbn [negb andb].
  exists (mkResp m' c). split; [destruct (to_recv =? 65535); reflexivity|].
  split; [reflexivity|]. subst c. apply response_of_loads. intros k Hk.
  rewrite <- (Hnew k Hk). reflexivity.
Qed.

Lemma exchange_short_response_witness :
  exists o',
    _transmit_raw (local_resp [] 0) [0x00; 0xCA; 0x00; 0x00; 0x00] 5
      (mkLine (map Some (take [0x00; 0xCA; 0x00; 0x00; 0x00] 5)
               ++ Some (byte_at [0x00; 0xCA; 0x00; 0x00; 0x00] 1)
               :: map Some (take (advance [0x00; 0xCA; 0x00; 0x00; 0x00] 5) (5 - 5))
               ++ map Some [0x01; 0x60; 0x90; 0x00] ++ [None; Some 0x3B]) [] true)
    = ((if to_recv_of [0x00; 0xCA; 0x00; 0x00; 0x00] 5 =? 65535 then 0 else -1), o',
       mkLine (tl [None; Some 0x3B]) ([] ++ take [0x00; 0xCA; 0x00; 0x00; 0x00] 5) true)
    /\ rx_len o'
       = Z.of_nat (length (counted (to_recv_of [0x00; 0xCA; 0x00; 0x00; 0x00] 5)
                                   [0x01; 0x60; 0x90; 0x00]))
    /\ response o' = counted (to_recv_of [0x00; 0xCA; 0x00; 0x00; 0x00] 5)
                             [0x01; 0x60; 0x90; 0x00].
Proof.
  apply (exchange_short_response (local_resp [] 0) [0x00; 0xCA; 0x00; 0x00; 0x00] 5
           (mkLine (map Some (take [0x00; 0xCA; 0x00; 0x00; 0x00] 5)
                    ++ Some (byte_at [0x00; 0xCA; 0x00; 0x00; 0x00] 1)
                    :: map Some (take (advance [0x00; 0xCA; 0x00; 0x00; 0x00] 5) (5 - 5))
                    ++ map Some [0x01; 0x60; 0x90; 0x00] ++ [None; Some 0x3B]) [] true)
           [0x01; 0x60; 0x90; 0x00] [None; Some 0x3B]).
  - lia.
  - simpl; lia.
  - reflexivity.
  - reflexivity.
  - reflexivity.
  - vm_compute. reflexivity.
Defined.

(** *** The response buffer, when the exchange waits for no more than fits *)

Lemma store_within (m : rxmem) (i v : Z) :
  i < Z.of_nat (length (cells m)) ->
  spill (store m i v) = spill m /\ length (cells (store m i v)) = length (cells m).
Proof.
  intros Hi. unfold store. destruct (Z.ltb_spec i (Z.of_nat (length (cells m)))); [|lia].
  cbn [spill cells]. now rewrite length_upd.
Qed.

Lemma procedure_loop_within (ins : Z) (o : resp) (q : list (option Z)) :
  spill (rx o) = [] -> (2 <= length (cells (rx o)))%nat ->
  match fst (procedure_loop ins o q) with
  | Some (_, o') => spill (rx o') = [] /\ length (cells (rx o')) = length (cells (rx o))
  | None => True
  end.
Proof.
  intros Hsp Hcap.
  induction q as [|[ack|] q IH]; cbn [procedure_loop fst]; auto.
  destruct (ack =? ins); cbn [fst]; auto.
  destruct (negb (ack =? 0x60)); [|exact IH].
  assert (Hst : forall sw2, spill (store (store (rx o) 0 ack) 1 sw2) = []
                            /\ length (cells (store (store (rx o) 0 ack) 1 sw2))
                               = length (cells (rx o))).
  { intros sw2.
    destruct (store_within (rx o) 0 ack ltac:(lia)) as [Hs0 Hl0].
    destruct (store_within (store (rx o) 0 ack) 1 sw2 ltac:(lia)) as [Hs1 Hl1].
    rewrite Hs1, Hs0, Hl1, Hl0. auto. }
  destruct q as [|[sw2|] [|[x|] q]]; cbn [fst rx]; auto.
Qed.

(** X7.  An exchange that waits for no more bytes than the caller's array
    holds (and the array holds at least the two bytes of a status word) never
    stores behind the array, whatever the card sends and however the exchange
    ends. *)
Theorem exchange_within_buffer (o : resp) (tx : list Z) (tx_len : Z) (u : line) :
  spill (rx o) = [] -> (2 <= length (cells (rx o)))%nat ->
  to_recv_of tx tx_len <= Z.of_nat (length (cells (rx o))) ->
  spill (rx (snd (fst (_transmit_raw o tx tx_len u)))) = []
  /\ length (cells (rx (snd (fst (_transmit_raw o tx tx_len u))))) = length (cells (rx o)).
Proof.
  intros Hsp Hcap Hto. unfold _transmit_raw. destruct (tx_len <? 5); [auto|].
  unfold after_check. destruct (_send_and_clear_echo tx 5 u) as [e u1].
  destruct (negb (e =? 0)); [auto|].
  pose proof (procedure_loop_within (byte_at tx 1) o (rxq u1) Hsp Hcap) as Hp.
  destruct (procedure_loop (byte_at tx 1) o (rxq u1)) as [[[r o']|] q]; [exact Hp|].
  unfold after_ack.
  destruct (if 5 <? tx_len then _ else _) as [e2 u2].
  destruct (negb (e2 =? 0)); [auto|].
  pose proof (receive_loop_within (to_recv_of tx tx_len) (rxq u2) (rx o) 0 Hto
                ltac:(lia) Hsp) as Hr.
  destruct (receive_loop (to_recv_of tx tx_len) (rx o) 0 (rxq u2)) as [[m n] q'].
  destruct (_ && _); exact Hr.
Qed.

Lemma exchange_within_buffer_witness :
  spill (rx (snd (fst (_transmit_raw (local_resp [] 0) [0x00; 0xB0; 0x00; 0x00; 0xFF] 5
                         (mkLine (map Some [0x00; 0xB0; 0x00; 0x00; 0xFF; 0xB0]
                                  ++ repeat (Some 0x11) 300) [] true))))) = []
  /\ length (cells (rx (snd (fst (_transmit_raw (local_resp [] 0)
                                    [0x00; 0xB0; 0x00; 0x00; 0xFF] 5
                                    (mkLine (map Some [0x00; 0xB0; 0x00; 0x00; 0xFF; 0xB0]
                                             ++ repeat (Some 0x11) 300) [] true))))))
     = length (cells (rx (local_resp [] 0))).
Proof.
  apply (exchange_within_buffer (local_resp [] 0) [0x00; 0xB0; 0x00; 0x00; 0xFF] 5).
  - reflexivity.
  - vm_compute. lia.
  - vm_compute. discriminate.
Defined.

Lemma receive_loop_range (to_recv : Z) (q : list (option Z)) : forall m len,
  len <= snd (fst (receive_loop to_recv m len q)) <= Z.max len to_recv.
Proof.
  induction q as [|[b|] q IH]; intros m len; cbn [receive_loop].
  - destruct (len <? to_recv); cbn [fst snd]; lia.
  - destruct (Z.ltb_spec len to_recv); [|cbn [fst snd]; lia].
    destruct (_ && _).
    + specialize (IH (store m len b) len). lia.
    + specialize (IH (store m len b) (len + 1)). lia.
  - destruct (len <? to_recv); cbn [fst snd]; lia.
Qed.

(** X8.  When an exchange returns 0, [*rx_len] is 2 (a status word that
    came in place of the acknowledgement), or the number of bytes the
    exchange waited for, or, when that number is the 65535 of "read until
    silence", anything from 0 to 65535. *)
Theorem successful_exchange_length (o : resp) (tx : list Z) (tx_len : Z) (u : line) :
  fst (fst (_transmit_raw o tx tx_len u)) = 0 ->
  rx_len (snd (fst (_transmit_raw o tx tx_len u))) = 2
  \/ rx_len (snd (fst (_transmit_raw o tx tx_len u))) = to_recv_of tx tx_len
  \/ (to_recv_of tx tx_len = 65535
      /\ 0 <= rx_len (snd (fst (_transmit_raw o tx tx_len u))) <= 65535).
Proof.
  unfold _transmit_raw. destruct (tx_len <? 5); [cbn; lia|].
  unfold after_check. destruct (_send_and_clear_echo tx 5 u) as [e u1].
  destruct (negb (e =? 0)); [cbn; lia|].
  destruct (procedure_loop (byte_at tx 1) o (rxq u1)) as [[[r o']|] q] eqn:Hp.
  - cbn [fst snd]. intros ->. left.
    clear - Hp. revert Hp. generalize (rxq u1) as s.
    induction s as [|[ack|] s IH]; cbn [procedure_loop]; intros Hp; try congruence.
    destruct (ack =? byte_at tx 1); [congruence|].
    destruct (negb (ack =? 0x60)); [|exact (IH Hp)].
    destruct s as [|[sw2|] [|[x|] s]]; try (exfalso; congruence);
      injection Hp as Ho _; subst o'; reflexivity.
  - unfold after_ack. destruct (if 5 <? tx_len then _ else _) as [e2 u2].
    destruct (negb (e2 =? 0)); [cbn; lia|].
    pose proof (receive_loop_range (to_recv_of tx tx_len) (rxq u2) (rx o) 0) as Hr.
    destruct (receive_loop (to_recv_of tx tx_len) (rx o) 0 (rxq u2)) as [[m n] q'].
    cbn [fst snd] in Hr.
    destruct (Z.eqb_spec n (to_recv_of tx tx_len)) as [Hn|Hn]; cbn [negb andb fst snd rx_len].
    + intros _. right. left. exact Hn.
    + destruct (Z.eqb_spec (to_recv_of tx tx_len) 65535) as [H65|]; cbn [negb fst snd rx_len].
      * intros _. right. right. split; [exact H65 | lia].
      * intros; lia.
Qed.

Lemma successful_exchange_length_witness :
  rx_len (snd (fst (_transmit_raw (local_resp [] 0) [0x00; 0xCA; 0x00; 0x00; 0x00] 5
                      (mkLine (map Some [0x00; 0xCA; 0x00; 0x00; 0x00; 0xCA; 0x01; 0x90; 0x00])
                              [] true)))) = 2
  \/ rx_len (snd (fst (_transmit_raw (local_resp [] 0) [0x00; 0xCA; 0x00; 0x00; 0x00] 5
                         (mkLine (map Some [0x00; 0xCA; 0x00; 0x00; 0x00; 0xCA; 0x01; 0x90; 0x00])
                                 [] true))))
     = to_recv_of [0x00; 0xCA; 0x00; 0x00; 0x00] 5
  \/ (to_recv_of [0x00; 0xCA; 0x00; 0x00; 0x00] 5 = 65535
      /\ 0 <= rx_len (snd (fst (_transmit_raw (local_resp [] 0) [0x00; 0xCA; 0x00; 0x00; 0x00] 5
                                  (mkLine (map Some [0x00; 0xCA; 0x00; 0x00; 0x00; 0xCA;
                                                     0x01; 0x90; 0x00]) [] true)))) <= 65535).
Proof.
  apply (successful_exchange_length (local_resp [] 0) [0x00; 0xCA; 0x00; 0x00; 0x00] 5
           (mkLine (map Some [0x00; 0xCA; 0x00; 0x00; 0x00; 0xCA; 0x01; 0x90; 0x00]) [] true)).
  vm_compute. reflexivity.
Defined.

(** *** Logical channels and the transmit entry point, at their edges *)

(** X9.  The SELECT that [logic_channel_open] builds for a channel byte and
    an AID of at most 250 bytes is the channel byte itself (no nibble of it
    is masked away), A4 04 00, the AID length, and the AID; and the exchange
    that carries it waits for a 2-byte status word when the AID is not
    empty, and reads until silence when it is. *)
Theorem select_command_bytes (channel : Z) (aid : list Z) (aid_len : Z) :
  is_byte channel -> aid_len = Z.of_nat (length aid) -> aid_len <= 250 ->
  select_command channel aid aid_len = [channel; 0xA4; 0x04; 0x00; aid_len] ++ aid
  /\ (6 + aid_len - 1) mod 256 = 5 + aid_len
  /\ to_recv_of (select_command channel aid aid_len) ((6 + aid_len - 1) mod 256)
     = if aid_len =? 0 then 65535 else 2.
Proof.
  intros Hch Hlen Hmax.
  assert (Hsel : select_command channel aid aid_len
                 = [channel; 0xA4; 0x04; 0x00; aid_len] ++ aid).
  { unfold select_command, take. rewrite Hlen, Nat2Z.id, firstn_all.
    cbn [APDU_SELECT_HEADER app byte_at Z.to_nat nth upd Z.land Z.lor].
    rewrite Z.mod_small by (unfold is_byte in Hch; lia). reflexivity. }
  assert (Hmod : (6 + aid_len - 1) mod 256 = 5 + aid_len)
    by (rewrite Z.mod_small by lia; lia).
  split; [exact Hsel|]. split; [exact Hmod|].
  rewrite Hsel, Hmod. unfold to_recv_of.
  change (byte_at ([channel; 0xA4; 0x04; 0x00; aid_len] ++ aid) 4) with aid_len.
  destruct (Z.eqb_spec aid_len 0) as [H0|H0].
  - rewrite H0. reflexivity.
  - cbn [andb]. destruct (Z.eqb_spec (5 + aid_len) 5) as [|_]; [lia|].
    destruct (Z.eqb_spec aid_len (5 + aid_len - 4 - 1)) as [_|]; [|lia]. cbn [negb andb].
    destruct (Z.eqb_spec (5 + aid_len) (5 + aid_len)) as [_|]; [reflexivity | lia].
Qed.

Lemma select_command_bytes_witness :
  select_command 0x03 [0xAA; 0xBB] 2 = [0x03; 0xA4; 0x04; 0x00; 2] ++ [0xAA; 0xBB]
  /\ (6 + 2 - 1) mod 256 = 5 + 2
  /\ to_recv_of (select_command 0x03 [0xAA; 0xBB] 2) ((6 + 2 - 1) mod 256)
     = if 2 =? 0 then 65535 else 2.
Proof.
  apply (select_command_bytes 0x03 [0xAA; 0xBB] 2).
  - unfold is_byte; lia.
  - reflexivity.
  - lia.
Defined.

(** X10.  With an AID of 251 to 255 bytes the length of the SELECT command
    no longer fits the [uint8_t] of [_transmit_raw]: what is left of it is
    below 5, the SELECT is refused, and [logic_channel_open] returns -1
    whatever the card does, also after the card has opened a channel. *)
Theorem open_fails_for_long_aid
    (junk : list Z) (junk_len : Z) (aid : list Z) (aid_len : Z) (u : line) :
  251 <= aid_len <= 255 ->
  fst (apdu_interface_logic_channel_open junk junk_len aid aid_len u) = -1.
Proof.
  intros Hlen. unfold apdu_interface_logic_channel_open.
  destruct (_transmit_raw (local_resp junk junk_len) APDU_OPENLOGICCHANNEL 5 u)
    as [[r o] u1].
  destruct (negb (r =? 0)); [reflexivity|].
  destruct (negb (rx_len o =? 3)); [reflexivity|].
  destruct (negb (Z.land (load (rx o) 1) 0xF0 =? 0x90)); [reflexivity|].
  assert (Hmod : (6 + aid_len - 1) mod 256 = aid_len - 251).
  { replace (6 + aid_len - 1) with (aid_len - 251 + 1 * 256) by lia.
    rewrite Z_mod_plus_full. apply Z.mod_small. lia. }
  rewrite Hmod. unfold _transmit_raw.
  destruct (Z.ltb_spec (aid_len - 251) 5); [reflexivity | lia].
Qed.

Lemma open_fails_for_long_aid_witness :
  fst (apdu_interface_logic_channel_open [] 0 (repeat 0xA0 251) 251
         (mkLine (map Some [0x00; 0x70; 0x00; 0x00; 0x01; 0x70; 0x01; 0x90; 0x00]) [] true))
  = -1.
Proof.
  apply (open_fails_for_long_aid [] 0 (repeat 0xA0 251) 251). lia.
Defined.

(** X11.  [apdu_interface_transmit] returns 0 together with a block, or -1
    without one.  Of the length it is given only the low 8 bits reach the
    exchange: when they are below 5 (lengths 0 to 4, and again 256 to 260)
    it returns -1 and nothing is written to or read from the line. *)
Theorem transmit_entry_result
    (heap : option (list Z)) (rx_len0 : Z) (tx : list Z) (tx_len : Z) (u : line) :
  let R := apdu_interface_transmit heap rx_len0 tx tx_len u in
  (fst (fst (fst R)) = 0 /\ snd (fst (fst R)) <> None
   \/ fst (fst (fst R)) = -1 /\ snd (fst (fst R)) = None)
  /\ (tx_len mod 256 < 5 ->
      R = (-1, None, match heap with Some _ => 0 | None => rx_len0 end, u)).
Proof.
  unfold apdu_interface_transmit. destruct heap as [junk|]; cbv zeta.
  - split.
    + destruct (_transmit_raw _ tx (tx_len mod 256) u) as [[r o'] u'].
      destruct (negb (r =? 0)); cbn [fst snd]; [right | left]; split; congruence.
    + intros Hlt. unfold _transmit_raw.
      destruct (Z.ltb_spec (tx_len mod 256) 5); [reflexivity | lia].
  - split; [right; split; reflexivity | reflexivity].
Qed.

Lemma transmit_entry_result_witness :
  apdu_interface_transmit (Some []) 7 (repeat 0x00 258) 258 (mkLine [Some 0x3B] [] true)
  = (-1, None, 0, mkLine [Some 0x3B] [] true).
Proof.
  apply (proj2 (transmit_entry_result (Some []) 7 (repeat 0x00 258) 258
                  (mkLine [Some 0x3B] [] true))).
  vm_compute. reflexivity.
Defined.

(** *** The ATR listener, when no ATR comes *)

Lemma skip_markers_silent (k : nat) (t : list (option Z)) :
  buffered t = O -> skip_markers (repeat (Some 0x3B) k ++ t) = (None, tl t).
Proof.
  intros Ht. induction k as [|k IH]; cbn [repeat app skip_markers].
  - destruct t as [|[b|] t]; [reflexivity | discriminate | reflexivity].
  - exact IH.
Qed.

(** X12.  The listener returns -1 when the first byte is not 0x3B, having
    read that byte only; and when the line falls silent at once or after
    nothing but 0x3B bytes.  It never writes. *)
Theorem atr_rejected (u : line) :
  (forall b q, rxq u = Some b :: q -> b <> 0x3B ->
               _wait_for_card u = (-1, with_rxq u q))
  /\ (forall k t, rxq u = repeat (Some 0x3B) k ++ t -> buffered t = O ->
                  _wait_for_card u = (-1, with_rxq u (tl t)))
  /\ txlog (snd (_wait_for_card u)) = txlog u.
Proof.
  unfold _wait_for_card. split; [|split].
  - intros b q -> Hb. destruct (Z.eqb_spec b 0x3B); [contradiction | reflexivity].
  - intros [|k] t -> Ht; cbn [repeat app].
    + destruct t as [|[b|] t]; [reflexivity | discriminate | reflexivity].
    + change (negb (0x3B =? 0x3B)) with false. cbv iota.
      now rewrite skip_markers_silent.
  - destruct (rxq u) as [|[data|] q1]; try reflexivity.
    destruct (negb (data =? 0x3B)); [reflexivity|].
    destruct (skip_markers q1) as [[t0|] q2]; [|reflexivity].
    destruct (read_interface t0 [0; 1; 2; 3] q2) as [[|] q3]; [|reflexivity].
    destruct (read_historical _ q3) as [[|] q4]; reflexivity.
Qed.

Lemma atr_rejected_witness :
  _wait_for_card (mkLine (repeat (Some 0x3B) 4 ++ [None; Some 0x97]) [0x55] true)
  = (-1, with_rxq (mkLine (repeat (Some 0x3B) 4 ++ [None; Some 0x97]) [0x55] true)
                  (tl [None; Some 0x97])).
Proof.
  apply (proj1 (proj2 (atr_rejected
           (mkLine (repeat (Some 0x3B) 4 ++ [None; Some 0x97]) [0x55] true)))
           4%nat [None; Some 0x97]); reflexivity.
Defined.

(** ** Further properties of driver/http/espidf.c *)

Lemma dispatch_app (a b : list (Http.event * option (list Z))) (g : Http.globals) :
  Http.dispatch (a ++ b) g = Http.dispatch b (Http.dispatch a g).
Proof.
  revert g. induction a as [|[evt heap] a IH]; intros g; [reflexivity|].
  cbn [app Http.dispatch]. apply IH.
Qed.

Lemma body_of_app (a b : list (Http.event * option (list Z))) :
  Http.body_of (a ++ b) = Http.body_of a ++ Http.body_of b.
Proof. unfold Http.body_of. apply flat_map_app. Qed.

(** Once [output_len] is behind [receive_len] it stays behind. *)
Lemma data_event_behind (body data : list Z) (heap : option (list Z)) (g : Http.globals) :
  data <> [] ->
  Z.of_nat (length (body ++ data)) < 2 ^ 32 - 1 ->
  Http.receive_len g = Z.of_nat (length body) ->
  0 <= Http.output_len g < Http.receive_len g ->
  let g' := snd (Http._http_event_handler (Http.HTTP_EVENT_ON_DATA data) heap g) in
  Http.receive_len g' = Z.of_nat (length (body ++ data))
  /\ 0 <= Http.output_len g' < Http.receive_len g'.
Proof.
  intros Hdata Hbound Hrecv Hout.
  rewrite length_app, Nat2Z.inj_add in *.
  assert (Hd : 0 < Z.of_nat (length data)) by (destruct data; [congruence | cbn [length]; lia]).
  unfold Http._http_event_handler, Http.malloc, Http.realloc.
  destruct (Http.output_buffer g) as [old|]; destruct heap as [junk|];
    cbn [option_map snd Http.receive_len Http.output_len];
    rewrite ?u32_small by lia; lia.
Qed.

Lemma dispatch_behind (evts : list (Http.event * option (list Z))) : forall body g,
  Http.chunks_nonempty evts ->
  Z.of_nat (length (body ++ Http.body_of evts)) < 2 ^ 32 - 1 ->
  Http.receive_len g = Z.of_nat (length body) ->
  0 <= Http.output_len g < Http.receive_len g ->
  Http.output_len (Http.dispatch evts g) <> Http.receive_len (Http.dispatch evts g).
Proof.
  induction evts as [|[evt heap] evts IH]; intros body g Hne Hbound Hrecv Hout.
  - cbn [Http.dispatch]. lia.
  - inversion Hne as [|? ? Hevt Hne']; subst. cbn [fst] in Hevt.
    cbn [Http.body_of flat_map Http.dispatch fst] in *. fold (Http.body_of evts) in *.
    destruct evt; try (cbn [app Http._http_event_handler snd] in *; now apply (IH body)).
    rewrite app_assoc in Hbound.
    destruct (data_event_behind body data heap g Hevt) as [Hrecv' Hout']; auto.
    { rewrite !length_app in *. lia. }
    now apply (IH (body ++ data)).
Qed.

(** X13.  A chunk of the body that meets a failed allocation is never lost
    in silence: whatever else the client delivers and whatever it returns,
    [transmit] then returns -1 with no buffer, length 0 and response code
    0. *)
Theorem lost_chunk_is_reported
    (evts : list (Http.event * option (list Z))) (data : list Z)
    (err status : Z) (g0 : Http.globals) :
  Http.chunks_nonempty evts ->
  Z.of_nat (length (Http.body_of evts)) < 2 ^ 32 - 1 ->
  In (Http.HTTP_EVENT_ON_DATA data, None) evts ->
  fst (Http.transmit evts err status g0) = Http.mkResult (-1) 0 None 0.
Proof.
  intros Hne Hbound Hin.
  destruct (in_split _ _ Hin) as (pre & post & ->).
  apply Forall_app in Hne. destruct Hne as [Hpre Hpost].
  inversion Hpost as [|? ? Hdata Hpost']; subst. cbn [fst] in Hdata.
  rewrite body_of_app in Hbound.
  change (Http.body_of ((Http.HTTP_EVENT_ON_DATA data, None) :: post))
    with (data ++ Http.body_of post) in Hbound.
  rewrite !length_app, !Nat2Z.inj_add in Hbound.
  assert (Hd : 0 < Z.of_nat (length data)) by (destruct data; [congruence | cbn [length]; lia]).
  destruct (dispatch_tracking pre [] (Http.mkGlobals None 0 0) Hpre) as (Hrecv & Hout & _).
  { cbn [app]. lia. }
  { unfold Http.tracking. cbn. repeat split; try lia. intros _. now left. }
  cbn [app] in Hrecv.
  unfold Http.transmit. rewrite dispatch_app. cbn [Http.dispatch].
  set (g := Http.dispatch pre (Http.mkGlobals None 0 0)) in *.
  pose proof (dispatch_behind post (Http.body_of pre ++ data)
                (snd (Http._http_event_handler (Http.HTTP_EVENT_ON_DATA data) None g)) Hpost')
    as Hbehind.
  destruct (Z.eqb_spec
              (Http.output_len (Http.dispatch post
                 (snd (Http._http_event_handler (Http.HTTP_EVENT_ON_DATA data) None g))))
              (Http.receive_len (Http.dispatch post
                 (snd (Http._http_event_handler (Http.HTTP_EVENT_ON_DATA data) None g)))))
    as [Heq|_]; [|reflexivity].
  exfalso. revert Heq. apply Hbehind.
  - rewrite !length_app, !Nat2Z.inj_add. lia.
  - unfold Http._http_event_handler, Http.malloc, Http.realloc.
    destruct (Http.output_buffer g); cbn [option_map snd Http.receive_len];
      rewrite u32_small, length_app, Nat2Z.inj_add by lia; lia.
  - unfold Http._http_event_handler, Http.malloc, Http.realloc.
    destruct (Http.output_buffer g); cbn [option_map snd Http.receive_len Http.output_len];
      rewrite u32_small by lia; lia.
Qed.

Lemma lost_chunk_is_reported_witness :
  fst (Http.transmit [(Http.HTTP_EVENT_ON_DATA [0x7B], Some []);
                      (Http.HTTP_EVENT_ON_DATA [0x7D; 0x0A], None);
                      (Http.HTTP_EVENT_ON_DATA [0x0A], Some [])]
                     Http.ESP_OK 200 (Http.mkGlobals None 0 0))
  = Http.mkResult (-1) 0 None 0.
Proof.
  apply (lost_chunk_is_reported
           [(Http.HTTP_EVENT_ON_DATA [0x7B], Some []);
            (Http.HTTP_EVENT_ON_DATA [0x7D; 0x0A], None);
            (Http.HTTP_EVENT_ON_DATA [0x0A], Some [])] [0x7D; 0x0A]).
  - repeat constructor; discriminate.
  - vm_compute. reflexivity.
  - right. left. reflexivity.
Defined.

(** X14.  After [transmit] the two counters are 0 again, and the static
    [output_buffer] is what [*rx] is: NULL after a failure or an empty body,
    and after a success with a body still the block that was handed to the
    caller. *)
Theorem transmit_leaves_globals
    (evts : list (Http.event * option (list Z))) (err status : Z) (g0 : Http.globals) :
  Http.chunks_nonempty evts ->
  Z.of_nat (length (Http.body_of evts)) < 2 ^ 32 - 1 ->
  Http.output_buffer (snd (Http.transmit evts err status g0))
  = Http.rx (fst (Http.transmit evts err status g0))
  /\ Http.output_len (snd (Http.transmit evts err status g0)) = 0
  /\ Http.receive_len (snd (Http.transmit evts err status g0)) = 0.
Proof.
  intros Hne Hbound.
  destruct (dispatch_tracking evts [] (Http.mkGlobals None 0 0) Hne Hbound)
    as (Hrecv & Hout & Hbuf).
  { unfold Http.tracking. cbn. repeat split; try lia. intros _. now left. }
  cbn [app] in *. unfold Http.transmit.
  set (g := Http.dispatch evts (Http.mkGlobals None 0 0)) in *.
  destruct (Z.eqb_spec (Http.output_len g) (Http.receive_len g)) as [Heq|_];
    cbn [negb]; [|cbn; auto].
  destruct (err =? Http.ESP_OK); [|cbn; auto].
  destruct (Hbuf Heq) as [[_ Hnone]|(Hbody & j & Hsome)].
  - rewrite Hnone, andb_false_r. cbn. auto.
  - rewrite Hsome. destruct (Z.ltb_spec 0 (Http.output_len g)); [cbn; auto|].
    (* a buffer with no byte counted does not occur *)
    exfalso. destruct (Http.body_of evts); [congruence | cbn [length] in *; lia].
Qed.

Lemma transmit_leaves_globals_witness :
  let evts := [(Http.HTTP_EVENT_ON_DATA [0x7B; 0x7D], Some [0xEE; 0xEE; 0xEE])] in
  Http.output_buffer (snd (Http.transmit evts Http.ESP_OK 200 (Http.mkGlobals None 0 0)))
  = Http.rx (fst (Http.transmit evts Http.ESP_OK 200 (Http.mkGlobals None 0 0)))
  /\ Http.output_len (snd (Http.transmit evts Http.ESP_OK 200 (Http.mkGlobals None 0 0))) = 0
  /\ Http.receive_len (snd (Http.transmit evts Http.ESP_OK 200 (Http.mkGlobals None 0 0))) = 0.
Proof.
  cbv zeta.
  apply (transmit_leaves_globals
           [(Http.HTTP_EVENT_ON_DATA [0x7B; 0x7D], Some [0xEE; 0xEE; 0xEE])]
           Http.ESP_OK 200 (Http.mkGlobals None 0 0)).
  - repeat constructor; discriminate.
  - vm_compute. reflexivity.
Defined.

(** *** The request headers *)

Lemma split_at_colon_key (key after : string) :
  Http.split_at_colon key = None ->
  Http.split_at_colon (String.append key (String ":" after)) = Some (key, after).
Proof.
  induction key as [|a key IH]; intros Hkey; [reflexivity|].
  cbn [Http.split_at_colon String.append] in *.
  destruct (Ascii.eqb a ":"); [discriminate|].
  destruct (Http.split_at_colon key) as [[k r]|]; [discriminate|].
  now rewrite IH.
Qed.

(** X15.  For a key without a colon: an entry "key:" followed by one
    character and a value sets the header [key] to that value, the one
    character after the colon being dropped whether it is a space or not; an
    entry that ends with the colon makes the value pointer pass the
    terminator; and an entry that is the key alone sets nothing. *)
Theorem header_of_entry (key value : string) (c : ascii) :
  Http.split_at_colon key = None ->
  Http.header_of (String.append key (String ":" (String c value)))
  = Some (key, Http.Value value)
  /\ Http.header_of (String.append key (String ":" EmptyString))
     = Some (key, Http.BehindTerminator)
  /\ Http.header_of key = None.
Proof.
  intros Hkey. unfold Http.header_of.
  rewrite !split_at_colon_key by exact Hkey. rewrite Hkey. auto.
Qed.

Lemma header_of_entry_witness :
  Http.header_of (String.append "Content-Type" (String ":" (String " " "application/json")))
  = Some ("Content-Type"%string, Http.Value "application/json")
  /\ Http.header_of (String.append "Content-Type" (String ":" EmptyString))
     = Some ("Content-Type"%string, Http.BehindTerminator)
  /\ Http.header_of "Content-Type" = None.
Proof.
  apply (header_of_entry "Content-Type" "application/json" " "). reflexivity.
Defined.

Lemma set_headers_app (a b : list string) :
  Http.set_headers (a ++ b) = Http.set_headers a ++ Http.set_headers b.
Proof.
  induction a as [|h a IH]; [reflexivity|].
  cbn [app Http.set_headers]. destruct (Http.header_of h); cbn [app]; now rewrite IH.
Qed.

(** X16.  The headers come out as they went in: a list of entries
    "key: value" with colon-free keys sets exactly these keys to these
    values, in order, also when the value itself holds colons; and an entry
    without a colon anywhere in the list changes nothing. *)
Theorem set_headers_round_trip
    (kvs : list (string * string)) (before after : list string) (s : string) :
  (Forall (fun kv => Http.split_at_colon (fst kv) = None) kvs ->
   Http.set_headers
     (map (fun kv => String.append (fst kv) (String ":" (String " " (snd kv)))) kvs)
   = map (fun kv => (fst kv, Http.Value (snd kv))) kvs)
  /\ (Http.split_at_colon s = None ->
      Http.set_headers (before ++ s :: after) = Http.set_headers (before ++ after)).
Proof.
  split.
  - intros Hkeys. induction Hkeys as [|[k v] kvs Hk _ IH]; [reflexivity|].
    cbn [map fst snd Http.set_headers] in *.
    destruct (header_of_entry k v " " Hk) as [-> _]. now rewrite IH.
  - intros Hs. rewrite !set_headers_app. cbn [Http.set_headers].
    unfold Http.header_of at 1. now rewrite Hs.
Qed.

Lemma set_headers_round_trip_witness :
  Http.set_headers
    (map (fun kv => String.append (fst kv) (String ":" (String " " (snd kv))))
         [("Content-Type"%string, "application/json"%string);
          ("X-Admin-Protocol"%string, "gsma/rsp/v2.2.0"%string)])
  = map (fun kv => (fst kv, Http.Value (snd kv)))
        [("Content-Type"%string, "application/json"%string);
         ("X-Admin-Protocol"%string, "gsma/rsp/v2.2.0"%string)]
  /\ Http.set_headers (["User-Agent: gsma-rsp-lpad"%string] ++ "no colon here"%string :: [])
     = Http.set_headers (["User-Agent: gsma-rsp-lpad"%string] ++ []).
Proof.
  split.
  - apply (proj1 (set_headers_round_trip
                    [("Content-Type"%string, "application/json"%string);
                     ("X-Admin-Protocol"%string, "gsma/rsp/v2.2.0"%string)] [] []
                    EmptyString)).
    repeat constructor.
  - apply (proj2 (set_headers_round_trip [] ["User-Agent: gsma-rsp-lpad"%string] []
                    "no colon here")).
    reflexivity.
Defined.

(** ** The command length is narrowed to 8 bits

    [apdu_interface_transmit] takes the length of the command as a
    [uint32_t] and hands it to [_transmit_raw], whose [tx_len] is a
    [uint8_t]: a command of more than 255 bytes reaches the length check and
    the response-length table with its length reduced modulo 256. *)

(** C8 (the code departs from it).  The claim: every command of at least 5
    bytes passes the length check and reaches the transmission of its
    header.  A short-form command of 256 bytes (header with Lc = 251, then
    251 bytes) reaches the check of line 64 with [tx_len = 0]: it is refused
    with -1, and nothing is written to or read from the line. *)
Theorem long_command_refused_by_length_check :
  let tx := [0x00; 0xD6; 0x00; 0x00; 0xFB] ++ repeat 0x11 251 in
  let u := mkLine (map Some (take tx 5) ++ [Some 0xD6]) [] true in
  Z.of_nat (length tx) = 256
  /\ 5 <= Z.of_nat (length tx)
  /\ apdu_interface_transmit (Some []) 0 tx (Z.of_nat (length tx)) u = (-1, None, 0, u)
  /\ txlog u = [].
Proof.
  cbv zeta. repeat split; vm_compute; congruence.
Qed.

(** C3 (the code departs from it).  The claim: a short-form command of
    header, Lc, Lc bytes and one trailing Le byte waits for Le + 2 bytes.
    The command 00 D6 00 00 FF, 255 bytes and Le = 0x10 has 261 bytes and the
    table gives 18; it reaches [_transmit_raw] with [tx_len = 5], is taken
    for a header alone with Le = 0xFF, only its header is written, and the
    exchange waits for 257 bytes and returns 0 when the card sends them. *)
Theorem long_short_form_command_taken_for_header :
  let body := repeat 0x11 255 ++ [0x10] in
  let tx := [0x00; 0xD6; 0x00; 0x00; 0xFF] ++ body in
  let u := mkLine (map Some (take tx 5) ++ Some 0xD6 :: repeat (Some 0x22) 257) [] true in
  Z.of_nat (length tx) = 261
  /\ Iso7816.expected_short 0xFF body = 18
  /\ to_recv_of tx (Z.of_nat (length tx) mod 256) = 257
  /\ exists m,
       apdu_interface_transmit (Some []) 0 tx (Z.of_nat (length tx)) u
       = (0, Some m, 257, mkLine [] [0x00; 0xD6; 0x00; 0x00; 0xFF] true).
Proof.
  cbv zeta. split; [reflexivity|]. split; [reflexivity|]. split; [reflexivity|].
  eexists. vm_compute. reflexivity.
Qed.

(** C4 (the code departs from it).  The claim: an extended-form command of
    header, 2-byte Lc and exactly Lc bytes waits for 2 bytes.  The command
    80 E2 91 00 00 01 00 and 256 bytes has 263 bytes and the table gives 2;
    it reaches [_transmit_raw] with [tx_len = 7], is taken for a header with
    the 2-byte Le = 0x0100, only its first 7 bytes are written, and the
    exchange waits for 258 bytes and returns 0 when the card sends them. *)
Theorem long_extended_command_taken_for_le :
  let body := [0x01; 0x00] ++ repeat 0x11 256 in
  let tx := [0x80; 0xE2; 0x91; 0x00; 0x00] ++ body in
  let u := mkLine (map Some (take tx 5) ++ Some 0xE2 :: map Some [0x01; 0x00]
                   ++ repeat (Some 0x22) 258) [] true in
  Z.of_nat (length tx) = 263
  /\ Iso7816.expected_extended body = 2
  /\ to_recv_of tx (Z.of_nat (length tx) mod 256) = 258
  /\ exists m,
       apdu_interface_transmit (Some []) 0 tx (Z.of_nat (length tx)) u
       = (0, Some m, 258, mkLine [] [0x80; 0xE2; 0x91; 0x00; 0x00; 0x01; 0x00] true).
Proof.
  cbv zeta. split; [reflexivity|]. split; [reflexivity|]. split; [reflexivity|].
  eexists. vm_compute. reflexivity.
Qed.
